(** * audio_visualizer.py: a shallow embedding and its properties

  The script decodes an audio file, downmixes it to mono, converts it to
  16-bit samples for playback, creates 64 bars in a Panda3D scene and,
  once per frame, sets the height of every bar from the sample window
  that starts at [int(task.time * sample_rate)].

  Samples, times and scale components are IEEE-754 binary64 numbers, as in
  Python and numpy: they are the kernel's primitive [float]s, specified by
  [Prim2SF] and the equations of [FloatAxioms].  Python's [int]s are [Z].
  The libraries the script calls (soundfile, simpleaudio, Panda3D, the C
  cast behind [astype]) are an environment record and a log of the calls
  made to them. *)

From Stdlib Require Import ZArith String List Floats Bool Lia.
From Stdlib Require Uint63.
Import ListNotations.

Set Warnings "-inexact-float".
Open Scope Z_scope.

(* ================================================================== *)
(** * Python values and builtins *)
(* ================================================================== *)

Module Py.

(** An exception: its class and [str(e)]. *)
Record exn := Exception { exn_class : string; exn_msg : string }.

Inductive result (A : Type) : Type :=
| Ok (a : A)
| Raise (e : exn).
Arguments Ok {A} a.
Arguments Raise {A} e.

Definition ValueError (msg : string) : exn := Exception "ValueError" msg.
Definition OverflowError (msg : string) : exn := Exception "OverflowError" msg.

(** [float(n)] for an [int] n, as in [t * n] and [n / m]: the nearest
    binary64 number (exact below 2^53). *)
Definition float_of_int (n : Z) : float :=
  SF2Prim (binary_normalize prec emax n 0 false).

(** [n / m] on two [int]s (true division). *)
Definition truediv (n m : Z) : float :=
  (float_of_int n / float_of_int m)%float.

(** The integer a float is turned into, given how a quotient of integers
    is made integral: a finite float is [(-1)^s * m * 2^e]. *)
Definition to_integer (divide : Z -> Z -> Z) (x : float) : result Z :=
  match Prim2SF x with
  | S754_nan => Raise (ValueError "cannot convert float NaN to integer")
  | S754_infinity _ =>
      Raise (OverflowError "cannot convert float infinity to integer")
  | S754_zero _ => Ok 0
  | S754_finite s m e =>
      Ok (if 0 <=? e then cond_Zopp s (Zpos m) * 2 ^ e
          else divide (cond_Zopp s (Zpos m)) (2 ^ (- e)))
  end.

(** [int(x)]: truncation toward zero. *)
Definition int (x : float) : result Z := to_integer Z.quot x.

(** [max(a, b)]: the first argument unless the second is greater. *)
Definition max (a b : float) : float :=
  if (a <? b)%float then b else a.

(** The bound of a slice, [slice.indices] for a step of 1. *)
Definition slice_index (len i : Z) : Z :=
  if i <? 0 then Z.max 0 (i + len) else Z.min i len.

(** [l[start:stop]]. *)
Definition slice {A : Type} (l : list A) (start stop : Z) : list A :=
  let len := Z.of_nat (length l) in
  let lo := slice_index len start in
  let hi := slice_index len stop in
  firstn (Z.to_nat (hi - lo)) (skipn (Z.to_nat lo) l).

Fixpoint enumerate_from {A : Type} (i : nat) (l : list A) : list (nat * A) :=
  match l with
  | [] => []
  | a :: l' => (i, a) :: enumerate_from (S i) l'
  end.

(** [enumerate(l)]. *)
Definition enumerate {A : Type} (l : list A) : list (nat * A) :=
  enumerate_from 0 l.

(** [range(n)]. *)
Definition range (n : Z) : list Z := map Z.of_nat (seq 0 (Z.to_nat n)).

End Py.

(* ================================================================== *)
(** * numpy arrays of float64 *)
(* ================================================================== *)

Module Np.

(** What [sf.read] returns: a 1-D array of frames for a mono file, a 2-D
    array of shape (frames, channels) otherwise. *)
Inductive ndarray : Type :=
| Array1D (data : list float)
| Array2D (channels : nat) (rows : list (list float)).

Definition ndim (a : ndarray) : Z :=
  match a with
  | Array1D _ => 1
  | Array2D _ _ => 2
  end.


(** [np.zeros(n)]. *)
Definition zeros (n : nat) : ndarray := Array1D (repeat 0%float n).

(** [np.add.reduce] over one row, in the order of the row. *)
Definition add_reduce (row : list float) : float :=
  match row with
  | [] => 0%float
  | v :: row' => fold_left PrimFloat.add row' v
  end.

(** One entry of [a.mean(axis=1)]: the sum of the row over its count. *)
Definition mean_row (channels : nat) (row : list float) : float :=
  (add_reduce row / Py.float_of_int (Z.of_nat channels))%float.

(** [a * k] for a 1-D array and an [int] k. *)
Definition mul_scalar (data : list float) (k : Z) : list float :=
  map (fun v => (v * Py.float_of_int k)%float) data.

Definition in_int16 (n : Z) : bool := (-32768 <=? n) && (n <=? 32767).

(** The two's complement reading of the low 16 bits. *)
Definition wrap16 (n : Z) : Z := (n + 32768) mod 65536 - 32768.

(** [astype(np.int16)] on one float64: the C cast [(short)v], which
    truncates toward zero; where the truncated value does not fit (or [v]
    is not finite) C leaves the result to the platform. *)
Definition cast_int16 (platform : float -> Z) (v : float) : Z :=
  match Py.int v with
  | Py.Ok n => if in_int16 n then n else wrap16 (platform v)
  | Py.Raise _ => wrap16 (platform v)
  end.

End Np.

(* ================================================================== *)
(** * Panda3D: scene nodes and the task protocol *)
(* ================================================================== *)

Module Panda.

Record LVecBase3 := Vec3 { x : float; y : float; z : float }.

(** The state of a scene node behind a [NodePath].  A node keeps the numbers
    it is given: the precision in which an engine build stores them is not
    modelled. *)
Record NodePath := {
  model : string;
  pos : LVecBase3;
  scale : LVecBase3;
  color : option (float * float * float * float);
  parent : option string
}.

(** [loader.loadModel(path)]: a fresh node at the origin, of unit scale. *)
Definition loadModel (path : string) : NodePath :=
  {| model := path; pos := Vec3 0 0 0; scale := Vec3 1 1 1;
     color := None; parent := None |}.

Definition setPos (np : NodePath) (px py pz : float) : NodePath :=
  {| model := model np; pos := Vec3 px py pz; scale := scale np;
     color := color np; parent := parent np |}.

Definition setScale (np : NodePath) (sx sy sz : float) : NodePath :=
  {| model := model np; pos := pos np; scale := Vec3 sx sy sz;
     color := color np; parent := parent np |}.

Definition getScale (np : NodePath) : LVecBase3 := scale np.

Definition setColor (np : NodePath) (cr cg cb ca : float) : NodePath :=
  {| model := model np; pos := pos np; scale := scale np;
     color := Some (cr, cg, cb, ca); parent := parent np |}.

Definition reparentTo (np : NodePath) (other : string) : NodePath :=
  {| model := model np; pos := pos np; scale := scale np;
     color := color np; parent := Some other |}.

(** What a task function returns: [Task.done] removes the task from the
    task manager, [Task.cont] has it called again at the next frame. *)
Inductive task_status : Set := Task_done | Task_cont.

End Panda.

(* ================================================================== *)
(** * The world outside the script *)
(* ================================================================== *)

Module World.

(** The calls that leave the script, in the order they are made. *)
Inductive event : Type :=
| Print (line : string)
| ShowBaseInit
| RequestProperties (title : string)
| DisableMouse
| PlayBuffer (data : list Z) (num_channels bytes_per_sample rate : Z)
| CameraSetPos (px py pz : Z)
| CameraLookAt (px py pz : Z)
| NewAmbientLight (name : string)
| NewDirectionalLight (name : string)
| LightSetColor (name : string) (c : float * float * float * float)
| AttachNewNode (name : string)
| NodeSetHpr (name : string) (h p r : Z)
| RenderSetLight (name : string)
| LoadModel (path : string)
| ReparentToRender (path : string)
| TaskMgrAdd (name : string)
| Run.

(** What the script asks of the libraries and gets back. *)
Record env := {
  (** [os.path.exists] *)
  os_path_exists : string -> bool;
  (** [sf.read]: the decoded array and the sample rate, or an exception *)
  sf_read : string -> Py.result (Np.ndarray * Z);
  (** [sa.play_buffer]: whether the device accepts the buffer *)
  sa_play_buffer : list Z -> Z -> Z -> Z -> Py.result unit;
  (** the platform's C cast of a float64 that does not fit an int16 *)
  c_cast_short : float -> Z;
  (** [task.time] at the successive frames of the main loop *)
  frame_times : list float
}.

(** A computation of the script: it extends the log and returns or
    raises. *)
Definition M (A : Type) : Type := list event -> Py.result A * list event.

Definition ret {A : Type} (a : A) : M A := fun log => (Py.Ok a, log).

Definition bind {A B : Type} (c : M A) (k : A -> M B) : M B :=
  fun log =>
    match c log with
    | (Py.Ok a, log') => k a log'
    | (Py.Raise e, log') => (Py.Raise e, log')
    end.

Definition call (ev : event) : M unit := fun log => (Py.Ok tt, log ++ [ev]).

Definition print (line : string) : M unit := call (Print line).

Definition lift {A : Type} (r : Py.result A) : M A := fun log => (r, log).

(** [try: body  except Exception as e: handler e]. *)
Definition try_except {A : Type} (body : M A) (handler : Py.exn -> M A) : M A :=
  fun log =>
    match body log with
    | (Py.Ok a, log') => (Py.Ok a, log')
    | (Py.Raise e, log') => handler e log'
    end.

(** [for i in items: self = body i self]. *)
Fixpoint for_each {I S : Type} (items : list I) (body : I -> S -> M S) (s : S)
  : M S :=
  match items with
  | [] => ret s
  | i :: items' => bind (body i s) (for_each items' body)
  end.

End World.

Declare Scope py_scope.
Delimit Scope py_scope with py.
Notation "x <- c ;; k" := (World.bind c (fun x => k))
  (at level 61, c at next level, right associativity) : py_scope.
Notation "' pat <- c ;; k" := (World.bind c (fun x => match x with pat => k end))
  (at level 61, pat pattern, c at next level, right associativity) : py_scope.
Notation "c ;; k" := (World.bind c (fun _ => k))
  (at level 61, right associativity) : py_scope.

(* ================================================================== *)
(** * class AudioVisualizer(ShowBase) *)
(* ================================================================== *)

Module AudioVisualizer.
Import World.
Local Open Scope py_scope.

(** The attributes of the application object.  [audio_data] is the array
    after the downmix, when it has one dimension. *)
Record Self := {
  audio_file : string;
  audio_data : list float;
  sample_rate : Z;
  playback_data : list Z;
  playback_obj : option unit;
  num_bars : Z;
  bars : list Panda.NodePath
}.

Definition set_playback_obj (v : option unit) (self : Self) : Self :=
  {| audio_file := audio_file self; audio_data := audio_data self;
     sample_rate := sample_rate self; playback_data := playback_data self;
     playback_obj := v; num_bars := num_bars self; bars := bars self |}.

Definition set_num_bars (v : Z) (self : Self) : Self :=
  {| audio_file := audio_file self; audio_data := audio_data self;
     sample_rate := sample_rate self; playback_data := playback_data self;
     playback_obj := playback_obj self; num_bars := v; bars := bars self |}.

Definition set_bars (v : list Panda.NodePath) (self : Self) : Self :=
  {| audio_file := audio_file self; audio_data := audio_data self;
     sample_rate := sample_rate self; playback_data := playback_data self;
     playback_obj := playback_obj self; num_bars := num_bars self; bars := v |}.

(** Lines 38-40: [if audio_data.ndim > 1: audio_data = audio_data.mean(axis=1)].
    The array has more than one dimension exactly when it is an [Array2D]. *)
Definition to_mono (raw : Np.ndarray) : list float :=
  match raw with
  | Np.Array2D channels rows => map (Np.mean_row channels) rows
  | Np.Array1D data => data
  end.

(** Line 43: [(audio_data * 32767).astype(np.int16)]. *)
Definition to_playback (w : env) (audio : list float) : list Z :=
  map (Np.cast_int16 (c_cast_short w)) (Np.mul_scalar audio 32767).

Definition play_audio (w : env) (self : Self) : M Self :=
  try_except
    (call (PlayBuffer (playback_data self) 1 2 (sample_rate self)) ;;
     obj <- lift (sa_play_buffer w (playback_data self) 1 2 (sample_rate self)) ;;
     ret (set_playback_obj (Some obj) self))
    (fun e => print ("Error playing audio: " ++ Py.exn_msg e)%string ;; ret self).

Definition setup_scene : M unit :=
  call (CameraSetPos 0 (-48) 0) ;;
  call (CameraLookAt 0 0 0) ;;
  call (NewAmbientLight "ambient") ;;
  call (LightSetColor "ambient" (0.2, 0.2, 0.2, 1)%float) ;;
  call (AttachNewNode "ambient") ;;
  call (RenderSetLight "ambient") ;;
  call (NewDirectionalLight "directional") ;;
  call (LightSetColor "directional" (0.8, 0.8, 0.8, 1)%float) ;;
  call (AttachNewNode "directional") ;;
  call (NodeSetHpr "directional" 45 (-45) 0) ;;
  call (RenderSetLight "directional").

(** The body of the loop of [prepare_bars] for one [i]. *)
Definition create_bar (i : Z) (self : Self) : M Self :=
  call (LoadModel "misc/rgbCube") ;;
  let bar := Panda.loadModel "misc/rgbCube" in
  let x_pos := ((Py.float_of_int i - Py.truediv (num_bars self) 2) * 0.5)%float in
  let bar := Panda.setPos bar x_pos 0 0 in
  let bar := Panda.setScale bar 0.4 0.1 0.1 in
  let bar := Panda.setColor bar 1
               (0.5 + Py.truediv i (num_bars self))
               (0.2 + Py.truediv i (num_bars self)) 1 in
  call (ReparentToRender "misc/rgbCube") ;;
  let bar := Panda.reparentTo bar "render" in
  ret (set_bars (bars self ++ [bar]) self).

Definition prepare_bars (self : Self) : M Self :=
  let self := set_num_bars 64 self in
  let self := set_bars [] self in
  for_each (Py.range (num_bars self)) create_bar self.

Definition __init__ (w : env) (audio_file : string) : M Self :=
  call ShowBaseInit ;;
  call (RequestProperties "Audio Visualizer") ;;
  call DisableMouse ;;
  ' (raw, rate) <-
    try_except
      (lift (sf_read w audio_file))
      (fun e => print ("Error loading audio file: " ++ Py.exn_msg e)%string ;;
                ret (Np.zeros 1024, 44100)) ;;
  let audio := to_mono raw in
  let self :=
    {| audio_file := audio_file; audio_data := audio; sample_rate := rate;
       playback_data := to_playback w audio; playback_obj := None;
       num_bars := 0; bars := [] |} in
  self <- play_audio w self ;;
  setup_scene ;;
  self <- prepare_bars self ;;
  call (TaskMgrAdd "UpdateVisualization") ;;
  ret self.

(** Lines 143-146, for the bar at position [i] of [enumerate(self.bars)]. *)
Definition update_bar (chunk : list float) (i : nat) (bar : Panda.NodePath)
  : Panda.NodePath :=
  if Z.of_nat i <? Z.of_nat (length chunk) then
    match nth_error chunk i with
    | Some sample =>
        let height := (abs sample * Py.float_of_int 10)%float in
        Panda.setScale bar (Panda.x (Panda.getScale bar)) 0.1 (Py.max 0.1 height)
    | None => bar
    end
  else bar.

Definition update_bars (chunk : list float) (bars : list Panda.NodePath)
  : list Panda.NodePath :=
  map (fun ib => update_bar chunk (fst ib) (snd ib)) (Py.enumerate bars).

(** Line 132. *)
Definition start_sample (self : Self) (current_time : float) : Py.result Z :=
  Py.int (current_time * Py.float_of_int (sample_rate self))%float.

Definition update_visualization (self : Self) (task_time : float)
  : Py.result (Panda.task_status * Self) :=
  let current_time := task_time in
  match start_sample self current_time with
  | Py.Raise e => Py.Raise e
  | Py.Ok start_sample =>
      if start_sample + num_bars self >=? Z.of_nat (length (audio_data self)) then
        Py.Ok (Panda.Task_done, self)
      else
        let chunk :=
          Py.slice (audio_data self) start_sample (start_sample + num_bars self) in
        Py.Ok (Panda.Task_cont, set_bars (update_bars chunk (bars self)) self)
  end.

(** The task manager over the frames of a session: the task is called once
    per frame with that frame's [task.time] until it returns [Task.done]. *)
Fixpoint task_loop (times : list float) (self : Self) : Py.result Self :=
  match times with
  | [] => Py.Ok self
  | t :: times' =>
      match update_visualization self t with
      | Py.Raise e => Py.Raise e
      | Py.Ok (Panda.Task_done, self') => Py.Ok self'
      | Py.Ok (Panda.Task_cont, self') => task_loop times' self'
      end
  end.

(** [app.run()]. *)
Definition run (w : env) (self : Self) : M Self :=
  call Run ;;
  lift (task_loop (frame_times w) self).

End AudioVisualizer.

(** [main()]: the application object it built, if it built one. *)
Definition main (w : World.env) : World.M (option AudioVisualizer.Self) :=
  (let audio_file := "LTJ Bukem - Atlantis [-g3RUnx9svM].mp3"%string in
   if negb (World.os_path_exists w audio_file) then
     World.print ("Error: File not found - " ++ audio_file)%string ;;
     World.print "Please update the audio_file path in the script" ;;
     World.ret None
   else
     app <- AudioVisualizer.__init__ w audio_file ;;
     app <- AudioVisualizer.run w app ;;
     World.ret (Some app))%py.

(** The module run as a script: lines 163-169. *)
Definition script (w : World.env) : World.M (option AudioVisualizer.Self) :=
  (World.print "Required libraries:" ;;
   World.print "pip install numpy soundfile panda3d simpleaudio" ;;
   main w)%py.

(* ================================================================== *)
(** * The words of the specification *)
(* ================================================================== *)

Module Spec.

(** [floor(x)]: the greatest integer that is at most [x]. *)
Definition floor (x : float) : Py.result Z := Py.to_integer Z.div x.

(** The integer nearest to [a / b], a tie going to the even one. *)
Definition div_nearest (a b : Z) : Z :=
  let q := a / b in
  match 2 * (a mod b) ?= b with
  | Lt => q
  | Gt => q + 1
  | Eq => if Z.even q then q else q + 1
  end.

(** [round(x)]. *)
Definition round (x : float) : Py.result Z := Py.to_integer div_nearest x.

(** Clipping to the 16-bit signed range. *)
Definition clip16 (n : Z) : Z := Z.max (-32768) (Z.min 32767 n).

(** Rounding toward zero, said with [floor]: the floor of a number that is
    not negative, minus the floor of its opposite otherwise. *)
Definition trunc (x : float) : Py.result Z :=
  if (x <? 0)%float then
    match floor (- x)%float with
    | Py.Ok n => Py.Ok (- n)
    | Py.Raise e => Py.Raise e
    end
  else floor x.


End Spec.

(* ================================================================== *)
(** * States of the application *)
(* ================================================================== *)

(** A float that is not negative: a zero of either sign, a positive number,
    plus infinity (and, for the shape alone, a NaN). *)
Definition sf_nonneg (x : spec_float) : Prop :=
  match x with
  | S754_finite true _ _ | S754_infinity true => False
  | _ => True
  end.

(** A float that is finite and of magnitude below [B + 1]. *)
Definition sf_below (B : Z) (x : spec_float) : Prop :=
  match x with
  | S754_zero _ => True
  | S754_finite _ m e => e < 0 /\ Z.pos m < (B + 1) * 2 ^ (- e)
  | _ => False
  end.

(** The bar that the loop of [prepare_bars] creates for [i]. *)
Definition bar_at (count i : Z) : Panda.NodePath :=
  Panda.reparentTo
    (Panda.setColor
       (Panda.setScale
          (Panda.setPos (Panda.loadModel "misc/rgbCube")
             ((Py.float_of_int i - Py.truediv count 2) * 0.5)%float 0 0)
          0.4 0.1 0.1)
       1 (0.5 + Py.truediv i count) (0.2 + Py.truediv i count) 1)
    "render".

(** The height of a bar: the third component of its scale (Panda3D's up
    axis), the one [update_visualization] computes from a sample. *)
Definition height_of (bar : Panda.NodePath) : float := Panda.z (Panda.scale bar).

(** Everything of a bar but its height. *)
Definition same_but_height (bar bar' : Panda.NodePath) : Prop :=
  Panda.model bar' = Panda.model bar /\
  Panda.pos bar' = Panda.pos bar /\
  Panda.color bar' = Panda.color bar /\
  Panda.parent bar' = Panda.parent bar /\
  Panda.x (Panda.scale bar') = Panda.x (Panda.scale bar) /\
  Panda.y (Panda.scale bar') = Panda.y (Panda.scale bar).

(** What holds of the bars from [prepare_bars] on. *)
Definition bars_ready (self : AudioVisualizer.Self) : Prop :=
  AudioVisualizer.num_bars self = 64 /\
  length (AudioVisualizer.bars self) = 64%nat /\
  Forall (fun bar => Panda.y (Panda.scale bar) = 0.1%float /\
                     (0.1 <=? height_of bar)%float = true)
         (AudioVisualizer.bars self).

(** The states the application object goes through: the one [__init__]
    returns, and the ones a call of the frame task leaves. *)
Inductive reachable (w : World.env) : AudioVisualizer.Self -> Prop :=
| reach_init (file : string) (log log' : list World.event)
    (self : AudioVisualizer.Self) :
    AudioVisualizer.__init__ w file log = (Py.Ok self, log') ->
    reachable w self
| reach_update (self self' : AudioVisualizer.Self) (t : float)
    (status : Panda.task_status) :
    reachable w self ->
    AudioVisualizer.update_visualization self t = Py.Ok (status, self') ->
    reachable w self'.

(* ================================================================== *)
(** * What [__init__] leaves behind, call by call *)
(* ================================================================== *)

Module Startup.
Import World.

(** The array and the rate after lines 31-36, and what was printed. *)
Definition decode (w : env) (file : string) : (Np.ndarray * Z) * list event :=
  match sf_read w file with
  | Py.Ok r => (r, [])
  | Py.Raise e =>
      ((Np.zeros 1024, 44100),
       [Print ("Error loading audio file: " ++ Py.exn_msg e)%string])
  end.

(** The playback handle after [play_audio], and what was printed. *)
Definition submit (w : env) (data : list Z) (rate : Z) : option unit * list event :=
  match sa_play_buffer w data 1 2 rate with
  | Py.Ok obj => (Some obj, [])
  | Py.Raise e => (None, [Print ("Error playing audio: " ++ Py.exn_msg e)%string])
  end.

Definition scene_events : list event :=
  [CameraSetPos 0 (-48) 0; CameraLookAt 0 0 0;
   NewAmbientLight "ambient";
   LightSetColor "ambient" (0.2, 0.2, 0.2, 1)%float;
   AttachNewNode "ambient"; RenderSetLight "ambient";
   NewDirectionalLight "directional";
   LightSetColor "directional" (0.8, 0.8, 0.8, 1)%float;
   AttachNewNode "directional"; NodeSetHpr "directional" 45 (-45) 0;
   RenderSetLight "directional"].

Definition bar_events (items : list Z) : list event :=
  flat_map (fun _ => [LoadModel "misc/rgbCube"; ReparentToRender "misc/rgbCube"])
    items.

(** The application object at the end of [__init__]. *)
Definition object (w : env) (file : string) : AudioVisualizer.Self :=
  let '(raw, rate) := fst (decode w file) in
  let audio := AudioVisualizer.to_mono raw in
  let data := AudioVisualizer.to_playback w audio in
  {| AudioVisualizer.audio_file := file;
     AudioVisualizer.audio_data := audio;
     AudioVisualizer.sample_rate := rate;
     AudioVisualizer.playback_data := data;
     AudioVisualizer.playback_obj := fst (submit w data rate);
     AudioVisualizer.num_bars := 64;
     AudioVisualizer.bars := map (bar_at 64) (Py.range 64) |}.

(** The calls [__init__] makes, in order. *)
Definition events (w : env) (file : string) : list event :=
  let '(raw, rate) := fst (decode w file) in
  let data := AudioVisualizer.to_playback w (AudioVisualizer.to_mono raw) in
  [ShowBaseInit; RequestProperties "Audio Visualizer"; DisableMouse]
  ++ snd (decode w file)
  ++ [PlayBuffer data 1 2 rate]
  ++ snd (submit w data rate)
  ++ scene_events
  ++ bar_events (Py.range 64)
  ++ [TaskMgrAdd "UpdateVisualization"].

End Startup.

(* ================================================================== *)
(** * Sessions to run the model on *)
(* ================================================================== *)

Module Fixtures.

(** No decoder for the file: [sf.read] raises. *)
Definition undecodable : World.env :=
  {| World.os_path_exists := fun _ => true;
     World.sf_read := fun _ =>
       Py.Raise (Py.Exception "LibsndfileError" "Format not recognised.");
     World.sa_play_buffer := fun _ _ _ _ => Py.Ok tt;
     World.c_cast_short := fun _ => 0;
     World.frame_times := [0; 0.01; 0.02; 0.03]%float |}.

(** The file is not there. *)
Definition missing : World.env :=
  {| World.os_path_exists := fun _ => false;
     World.sf_read := fun _ => Py.Raise (Py.Exception "LibsndfileError" "System error.");
     World.sa_play_buffer := fun _ _ _ _ => Py.Ok tt;
     World.c_cast_short := fun _ => 0;
     World.frame_times := [] |}.

(** 200 stereo frames at 8000 Hz: frame k is (k/128, -k/256). *)
Definition stereo_clip : Np.ndarray :=
  Np.Array2D 2
    (map (fun k => [Py.truediv k 128; Py.truediv (- k) 256]) (Py.range 200)).

Definition stereo : World.env :=
  {| World.os_path_exists := fun _ => true;
     World.sf_read := fun _ => Py.Ok (stereo_clip, 8000);
     World.sa_play_buffer := fun _ _ _ _ =>
       Py.Raise (Py.Exception "SimpleaudioError" "Error opening PCM device.");
     World.c_cast_short := fun _ => 0;
     World.frame_times := [0; 0.004; 0.008; 0.012; 0.016; 0.02; 0.024]%float |}.

(** The application objects [__init__] returns in these sessions. *)
Definition undecodable_app : AudioVisualizer.Self :=
  Startup.object undecodable "clip.wav".

Definition stereo_app : AudioVisualizer.Self :=
  Startup.object stereo "clip.wav".

End Fixtures.

(* ================================================================== *)
(** * Further notions and sessions *)
(* ================================================================== *)

(** A sample that does not lift its bar: ten times its magnitude is not
    above 0.1 (a NaN is such a sample). *)
Definition quiet (sample : float) : bool := negb (0.1 <? abs sample * 10)%float.

(** The calls of [sa.play_buffer] in a log. *)
Definition is_play_buffer (ev : World.event) : bool :=
  match ev with
  | World.PlayBuffer _ _ _ _ => true
  | _ => false
  end.

(** The lines printed in a log. *)
Definition is_print (ev : World.event) : bool :=
  match ev with
  | World.Print _ => true
  | _ => false
  end.

(** The guard of line 135 holds at elapsed time [t]. *)
Definition stops_at (self : AudioVisualizer.Self) (t : float) : Prop :=
  exists s,
    AudioVisualizer.start_sample self t = Py.Ok s /\
    s + AudioVisualizer.num_bars self >=
    Z.of_nat (length (AudioVisualizer.audio_data self)).

(** Where a bar stands along the row. *)
Definition bar_x (bar : Panda.NodePath) : float := Panda.x (Panda.pos bar).



Module Clips.

(** A mono clip of 64 samples, one per bar and none to spare. *)
Definition short : World.env :=
  {| World.os_path_exists := fun _ => true;
     World.sf_read := fun _ =>
       Py.Ok (Np.Array1D (map (fun k => Py.truediv k 64) (Py.range 64)), 44100);
     World.sa_play_buffer := fun _ _ _ _ => Py.Ok tt;
     World.c_cast_short := fun _ => 0;
     World.frame_times := [0; 0.016; 0.033]%float |}.

Definition short_app : AudioVisualizer.Self := Startup.object short "clip.wav".

(** The application object at the end of the stereo session. *)
Definition stereo_final : AudioVisualizer.Self :=
  match
    AudioVisualizer.task_loop (World.frame_times Fixtures.stereo) Fixtures.stereo_app
  with
  | Py.Ok final => final
  | Py.Raise _ => Fixtures.stereo_app
  end.

(** The stereo application after its frame at 0.004 s. *)
Definition stereo_after_one_frame : AudioVisualizer.Self :=
  match AudioVisualizer.update_visualization Fixtures.stereo_app 0.004 with
  | Py.Ok (_, self') => self'
  | Py.Raise _ => Fixtures.stereo_app
  end.

End Clips.

(* ================================================================== *)
(** * Facts about binary64 comparison and sign *)
(* ================================================================== *)

Section FloatOrder.
Local Open Scope float_scope.

Lemma ltb_leb (a b : float) : (a <? b) = true -> (a <=? b) = true.
Proof.
  rewrite FloatAxioms.ltb_spec, FloatAxioms.leb_spec. unfold SFltb, SFleb.
  destruct (SFcompare _ _) as [[]|]; congruence.
Qed.

Lemma SFcompare_antisym (a b : spec_float) :
  SFcompare b a = option_map CompOpp (SFcompare a b).
Proof.
  destruct a as [sa|sa| |sa ma ea], b as [sb|sb| |sb mb eb]; simpl; try reflexivity;
    try (destruct sa; reflexivity); try (destruct sb; reflexivity);
    try (destruct sa, sb; reflexivity).
  destruct sa, sb; simpl; try reflexivity.
  - rewrite (Z.compare_antisym ea eb).
    destruct (ea ?= eb)%Z; simpl; try reflexivity.
    pose proof (Pos.compare_cont_antisym ma mb Eq) as A; simpl in A.
    now rewrite A.
  - rewrite (Z.compare_antisym ea eb).
    destruct (ea ?= eb)%Z; simpl; try reflexivity.
    pose proof (Pos.compare_cont_antisym ma mb Eq) as A; simpl in A.
    now rewrite <- A.
Qed.

(** Two numbers (no NaN) are comparable. *)
Lemma not_ltb_leb (a b : float) :
  (a =? a) = true -> (b =? b) = true -> (a <? b) = false -> (b <=? a) = true.
Proof.
  rewrite !FloatAxioms.eqb_spec, FloatAxioms.ltb_spec, FloatAxioms.leb_spec.
  unfold SFeqb, SFltb, SFleb.
  rewrite (SFcompare_antisym (Prim2SF a) (Prim2SF b)).
  destruct (Prim2SF a) as [sa|sa| |sa ma ea], (Prim2SF b) as [sb|sb| |sb mb eb];
    simpl; try discriminate; intros _ _;
    try (destruct sa; simpl; congruence); try (destruct sb; simpl; congruence);
    try (destruct sa, sb; simpl; congruence).
  destruct sa, sb; simpl; try congruence.
  - destruct (ea ?= eb)%Z; simpl; try congruence.
    destruct (Pos.compare_cont Eq ma mb); simpl; congruence.
  - destruct (ea ?= eb)%Z; simpl; try congruence.
    destruct (Pos.compare_cont Eq ma mb); simpl; congruence.
Qed.

(** [max(a, b)] is one of its arguments. *)
Lemma max_cases (a b : float) : Py.max a b = a \/ Py.max a b = b.
Proof. unfold Py.max. destruct (a <? b); auto. Qed.

(** [max(a, b)] is at least [a], when [a] is a number. *)
Lemma max_ge_left (a b : float) :
  (a <=? a) = true -> (a <=? Py.max a b) = true.
Proof.
  intros Ha. unfold Py.max. destruct (a <? b) eqn:Hab; [|exact Ha].
  now apply ltb_leb.
Qed.

(** [max(a, b)] is at least [b], when both are numbers. *)
Lemma max_ge_right (a b : float) :
  (a =? a) = true -> (b =? b) = true -> (b <=? Py.max a b) = true.
Proof.
  intros Ha Hb. unfold Py.max. destruct (a <? b) eqn:Hab.
  - revert Hb. rewrite FloatAxioms.eqb_spec, FloatAxioms.leb_spec.
    unfold SFeqb, SFleb. destruct (SFcompare _ _) as [[]|]; congruence.
  - now apply not_ltb_leb.
Qed.

(** With a NaN for second argument [max] returns the first. *)
Lemma max_nan_right (a b : float) : (b =? b) = false -> Py.max a b = a.
Proof.
  unfold Py.max. rewrite FloatAxioms.eqb_spec, FloatAxioms.ltb_spec.
  unfold SFeqb, SFltb.
  destruct (Prim2SF b) as [sb|sb| |sb mb eb] eqn:Eb.
  - destruct (Prim2SF a); simpl; discriminate.
  - destruct sb; simpl; discriminate.
  - intros _. destruct (Prim2SF a); reflexivity.
  - simpl. destruct sb; rewrite Z.compare_refl, Pos.compare_cont_refl; discriminate.
Qed.

End FloatOrder.

Section FloatSign.

Lemma binary_round_aux_nonneg (m e : Z) (l : location) :
  sf_nonneg (binary_round_aux prec emax false m e l).
Proof.
  unfold binary_round_aux.
  destruct (shr_fexp prec emax m e l) as [mrs' e'].
  destruct (shr_fexp prec emax _ e' loc_Exact) as [mrs'' e''].
  destruct (shr_m mrs''); try exact I.
  destruct (Z.leb _ _); exact I.
Qed.

Lemma binary_round_nonneg (m : positive) (e : Z) :
  sf_nonneg (binary_round prec emax false m e).
Proof.
  unfold binary_round.
  destruct (shl_align m e _) as [mz ez].
  apply binary_round_aux_nonneg.
Qed.

Lemma binary_normalize_nonneg (n e : Z) :
  0 <= n -> sf_nonneg (binary_normalize prec emax n e false).
Proof.
  destruct n as [|p|p]; simpl; intros Hn.
  - exact I.
  - apply binary_round_nonneg.
  - lia.
Qed.

Lemma SFldexp_nonneg (x : spec_float) (e : Z) :
  sf_nonneg x -> sf_nonneg (SFldexp prec emax x e).
Proof.
  destruct x as [s|s| |s m ex]; simpl; auto.
  destruct s; [contradiction|]. intros _. apply binary_round_nonneg.
Qed.

Lemma SF2Prim_nonneg (x : spec_float) :
  sf_nonneg x -> sf_nonneg (Prim2SF (SF2Prim x)).
Proof.
  destruct x as [s|s| |s m e]; simpl.
  - destruct s; intros _; vm_compute; exact I.
  - destruct s; [contradiction|]. intros _; vm_compute; exact I.
  - intros _; vm_compute; exact I.
  - destruct s; [contradiction|]. intros _.
    unfold Z.ldexp. rewrite ldshiftexp_spec.
    apply SFldexp_nonneg. rewrite of_uint63_spec.
    apply binary_normalize_nonneg.
    apply Uint63.to_Z_bounded.
Qed.

(** [float(n)] is not negative when [n] is not. *)
Lemma float_of_int_nonneg (n : Z) :
  0 <= n -> sf_nonneg (Prim2SF (Py.float_of_int n)).
Proof.
  intros Hn. unfold Py.float_of_int.
  apply SF2Prim_nonneg, binary_normalize_nonneg, Hn.
Qed.

Lemma leb_zero_nonneg (t : float) :
  (0 <=? t)%float = true -> sf_nonneg (Prim2SF t).
Proof.
  rewrite FloatAxioms.leb_spec.
  change (Prim2SF 0) with (S754_zero false).
  destruct (Prim2SF t) as [s|s| |s m e]; simpl; auto;
    destruct s; simpl; auto; discriminate.
Qed.

Lemma SFmul_nonneg (a b : spec_float) :
  sf_nonneg a -> sf_nonneg b -> sf_nonneg (SFmul prec emax a b).
Proof.
  destruct a as [sa|sa| |sa ma ea], b as [sb|sb| |sb mb eb]; simpl; auto;
    try (destruct sa; simpl; auto; try contradiction);
    try (destruct sb; simpl; auto; try contradiction).
  intros _ _. apply binary_round_aux_nonneg.
Qed.

(** The product of two floats that are not negative is not negative. *)
Lemma mul_nonneg (a b : float) :
  sf_nonneg (Prim2SF a) -> sf_nonneg (Prim2SF b) -> sf_nonneg (Prim2SF (a * b)).
Proof.
  intros Ha Hb. rewrite mul_spec. now apply SFmul_nonneg.
Qed.


Lemma integral_part_nonneg (m : positive) (e : Z) :
  0 <= (if 0 <=? e then Z.pos m * 2 ^ e else Z.quot (Z.pos m) (2 ^ (- e))).
Proof.
  destruct (0 <=? e) eqn:He.
  - apply Z.leb_le in He. apply Z.mul_nonneg_nonneg; [lia|]. apply Z.pow_nonneg; lia.
  - apply Z.leb_gt in He. apply Z.quot_pos; [lia|]. apply Z.pow_pos_nonneg; lia.
Qed.

Lemma int_nonneg (p : float) (n : Z) :
  sf_nonneg (Prim2SF p) -> Py.int p = Py.Ok n -> 0 <= n.
Proof.
  unfold Py.int, Py.to_integer.
  destruct (Prim2SF p) as [s|s| |s m e]; try discriminate.
  - intros _ H; injection H as <-; lia.
  - destruct s; [intros []|]. intros _ H; injection H as <-.
    apply integral_part_nonneg.
Qed.

End FloatSign.

Section Truncation.

Lemma floor_opp (x : float) :
  Spec.floor (- x)%float =
  match Prim2SF x with
  | S754_nan => Py.Raise (Py.ValueError "cannot convert float NaN to integer")
  | S754_infinity _ =>
      Py.Raise (Py.OverflowError "cannot convert float infinity to integer")
  | S754_zero _ => Py.Ok 0
  | S754_finite s m e =>
      Py.Ok (if 0 <=? e then cond_Zopp (negb s) (Zpos m) * 2 ^ e
             else cond_Zopp (negb s) (Zpos m) / 2 ^ (- e))
  end.
Proof.
  unfold Spec.floor, Py.to_integer. rewrite opp_spec.
  destruct (Prim2SF x) as [s|s| |s m e]; reflexivity.
Qed.

(** [int(x)] rounds toward zero: it is the floor of [x] when [x] is not
    below zero and minus the floor of [-x] when it is. *)
Lemma int_is_trunc (x : float) : Py.int x = Spec.trunc x.
Proof.
  unfold Spec.trunc. rewrite floor_opp.
  rewrite FloatAxioms.ltb_spec. change (Prim2SF 0) with (S754_zero false).
  unfold Py.int, Spec.floor, Py.to_integer, SFltb.
  destruct (Prim2SF x) as [s|s| |s m e]; try reflexivity.
  - destruct s; reflexivity.
  - destruct s; unfold cond_Zopp, negb; cbv iota;
      change (SFcompare (S754_finite true m e) (S754_zero false)) with (Some Lt);
      change (SFcompare (S754_finite false m e) (S754_zero false)) with (Some Gt);
      cbv iota.
    + destruct (0 <=? e) eqn:He.
      * f_equal. lia.
      * f_equal. apply Z.leb_gt in He.
        assert (0 < 2 ^ (- e)) by (apply Z.pow_pos_nonneg; lia).
        rewrite <- (Z.quot_div_nonneg (Z.pos m)) by lia.
        rewrite Z.quot_opp_l by lia.
        reflexivity.
    + destruct (0 <=? e) eqn:He; [reflexivity|].
      f_equal. apply Z.leb_gt in He.
      apply Z.quot_div_nonneg; [lia|]. apply Z.pow_pos_nonneg; lia.
Qed.

End Truncation.

(* ================================================================== *)
(** * Rounding to 53 bits *)
(* ================================================================== *)

Section Rounding.

Lemma digits2_pos_upper (m : positive) : Z.pos m < 2 ^ Z.pos (digits2_pos m).
Proof.
  induction m as [m IH|m IH|]; simpl digits2_pos.
  - rewrite Pos2Z.inj_succ, Z.pow_succ_r by lia. lia.
  - rewrite Pos2Z.inj_succ, Z.pow_succ_r by lia. lia.
  - reflexivity.
Qed.

Lemma digits2_pos_lower (m : positive) : 2 ^ (Z.pos (digits2_pos m) - 1) <= Z.pos m.
Proof.
  induction m as [m IH|m IH|]; simpl digits2_pos.
  - rewrite Pos2Z.inj_succ. replace (Z.succ (Z.pos (digits2_pos m)) - 1)
      with (Z.succ (Z.pos (digits2_pos m) - 1)) by lia.
    rewrite Z.pow_succ_r by lia. lia.
  - rewrite Pos2Z.inj_succ. replace (Z.succ (Z.pos (digits2_pos m)) - 1)
      with (Z.succ (Z.pos (digits2_pos m) - 1)) by lia.
    rewrite Z.pow_succ_r by lia. lia.
  - simpl. lia.
Qed.

(** A positive number below [2^k] has at most [k] binary digits. *)
Lemma Zdigits2_le (m k : Z) : 0 <= m -> 0 <= k -> m < 2 ^ k -> Zdigits2 m <= k.
Proof.
  intros Hm Hk Hlt. destruct m as [|p|p]; simpl; try lia.
  pose proof (digits2_pos_lower p) as L.
  destruct (Z_le_gt_dec (Z.pos (digits2_pos p)) k) as [|Hgt]; [assumption|].
  exfalso. assert (2 ^ k <= 2 ^ (Z.pos (digits2_pos p) - 1))
    by (apply Z.pow_le_mono_r; lia). lia.
Qed.

Lemma shr_1_m (mrs : shr_record) :
  0 <= shr_m mrs -> shr_m (shr_1 mrs) = shr_m mrs / 2.
Proof.
  destruct mrs as [m r s]; simpl. intros Hm.
  destruct m as [|[p|p|]|p]; try lia; simpl shr_m.
  - reflexivity.
  - rewrite Pos2Z.inj_xI. symmetry.
    rewrite Z.add_comm, Z.mul_comm, Z.div_add by lia. reflexivity.
  - rewrite Pos2Z.inj_xO. symmetry. rewrite Z.mul_comm, Z.div_mul by lia. reflexivity.
  - reflexivity.
Qed.

Lemma iter_shr_1_m (p : positive) (mrs : shr_record) :
  0 <= shr_m mrs ->
  shr_m (iter_pos shr_1 p mrs) = shr_m mrs / 2 ^ Z.pos p.
Proof.
  revert mrs. induction p as [p IH|p IH|]; intros mrs Hm; simpl iter_pos.
  - assert (P : 0 < 2 ^ Z.pos p) by (apply Z.pow_pos_nonneg; lia).
    assert (H1 : 0 <= shr_m (shr_1 mrs))
      by (rewrite shr_1_m by lia; apply Z.div_pos; lia).
    assert (H2 : 0 <= shr_m (iter_pos shr_1 p (shr_1 mrs)))
      by (rewrite IH by lia; apply Z.div_pos; lia).
    rewrite IH, IH, shr_1_m by lia.
    rewrite !Z.div_div by lia. f_equal.
    replace (Z.pos p~1) with (Z.pos p + Z.pos p + 1) by lia.
    rewrite !Z.pow_add_r by lia. change (2 ^ 1) with 2. lia.
  - assert (P : 0 < 2 ^ Z.pos p) by (apply Z.pow_pos_nonneg; lia).
    assert (H2 : 0 <= shr_m (iter_pos shr_1 p mrs))
      by (rewrite IH by lia; apply Z.div_pos; lia).
    rewrite IH, IH by lia.
    rewrite !Z.div_div by lia. f_equal.
    replace (Z.pos p~0) with (Z.pos p + Z.pos p) by lia.
    now rewrite Z.pow_add_r by lia.
  - rewrite shr_1_m by lia. reflexivity.
Qed.

(** Shifting right by [n] divides the mantissa by [2^n] and adds [n] to the
    exponent; a shift that is not positive does nothing. *)
Lemma shr_m_e (mrs : shr_record) (e n : Z) :
  0 <= shr_m mrs ->
  shr_m (fst (shr mrs e n)) = shr_m mrs / 2 ^ Z.max 0 n /\
  snd (shr mrs e n) = e + Z.max 0 n.
Proof.
  intros Hm. destruct n as [|p|p]; simpl.
  - rewrite Z.div_1_r. split; [reflexivity|lia].
  - split; [now apply iter_shr_1_m | reflexivity].
  - rewrite Z.div_1_r. split; [reflexivity|lia].
Qed.

Lemma shr_record_of_loc_m (m : Z) (l : location) : shr_m (shr_record_of_loc m l) = m.
Proof. destruct l as [|[]]; reflexivity. Qed.

Lemma round_nearest_even_bounds (m : Z) (l : location) :
  m <= round_nearest_even m l <= m + 1.
Proof.
  unfold round_nearest_even. destruct l as [|[]]; try lia.
  destruct (Z.even m); lia.
Qed.

End Rounding.

Section Bound.

Lemma fexp_small (x : Z) : x <= 15 -> fexp prec emax x <= -38.
Proof. unfold fexp, SpecFloat.emin, prec, emax. lia. Qed.

Lemma pow2_split (a b : Z) : 0 <= a -> 0 <= b -> 2 ^ (a + b) = 2 ^ a * 2 ^ b.
Proof. intros. now apply Z.pow_add_r. Qed.

(** Rounding a positive number that is at most [B], below [2^15], to 53
    bits leaves it below [B + 1]. *)
Lemma binary_round_aux_below (s : bool) (M : positive) (E B : Z) :
  E < 0 -> 0 < B -> B + 1 <= 2 ^ 15 ->
  Z.pos M <= B * 2 ^ (- E) ->
  sf_below B (binary_round_aux prec emax s (Z.pos M) E loc_Exact).
Proof.
  intros HE HB HB15 HM.
  unfold binary_round_aux, shr_fexp.
  set (n1 := fexp prec emax (Zdigits2 (Z.pos M) + E) - E).
  pose proof (shr_m_e (shr_record_of_loc (Z.pos M) loc_Exact) E n1) as S1.
  rewrite shr_record_of_loc_m in S1. specialize (S1 ltac:(lia)).
  destruct (shr (shr_record_of_loc (Z.pos M) loc_Exact) E n1) as [mrs' e'].
  cbn [fst snd] in S1. destruct S1 as [Hm' He'].
  assert (P0 : 0 < 2 ^ (- E)) by (apply Z.pow_pos_nonneg; lia).
  assert (Hd : Zdigits2 (Z.pos M) + E <= 15).
  { assert (Zdigits2 (Z.pos M) <= 15 - E); [|lia].
    apply Zdigits2_le; try lia.
    replace (15 - E) with (15 + - E) by lia.
    rewrite pow2_split by lia. nia. }
  pose proof (fexp_small _ Hd) as Hf1.
  set (k1 := Z.max 0 n1) in *.
  assert (Hk1 : 0 <= k1) by lia.
  assert (He'neg : e' < 0) by (subst e' k1 n1; lia).
  assert (P1 : 0 < 2 ^ k1) by (apply Z.pow_pos_nonneg; lia).
  assert (P1' : 2 <= 2 ^ (- e')).
  { change 2 with (2 ^ 1) at 1. apply Z.pow_le_mono_r; lia. }
  assert (Hsplit : 2 ^ (- E) = 2 ^ k1 * 2 ^ (- e')).
  { rewrite <- pow2_split by lia. f_equal. lia. }
  pose proof (round_nearest_even_bounds (shr_m mrs') (loc_of_shr_record mrs')) as Hr.
  set (m1 := round_nearest_even (shr_m mrs') (loc_of_shr_record mrs')) in *.
  assert (Hm'0 : 0 <= shr_m mrs') by (rewrite Hm'; apply Z.div_pos; lia).
  assert (Hm1 : m1 < (B + 1) * 2 ^ (- e')).
  { assert (shr_m mrs' <= B * 2 ^ (- e')); [|nia].
    rewrite Hm'. apply Z.div_le_upper_bound; [lia|]. rewrite Hsplit in HM. nia. }
  set (n2 := fexp prec emax (Zdigits2 m1 + e') - e').
  pose proof (shr_m_e (shr_record_of_loc m1 loc_Exact) e' n2) as S2.
  rewrite shr_record_of_loc_m in S2. specialize (S2 ltac:(lia)).
  destruct (shr (shr_record_of_loc m1 loc_Exact) e' n2) as [mrs'' e''].
  cbn [fst snd] in S2. destruct S2 as [Hm'' He''].
  assert (Hd1 : Zdigits2 m1 + e' <= 15).
  { assert (Zdigits2 m1 <= 15 - e'); [|lia].
    apply Zdigits2_le; try lia.
    replace (15 - e') with (15 + - e') by lia.
    rewrite pow2_split by lia.
    assert (0 < 2 ^ (- e')) by lia. nia. }
  pose proof (fexp_small _ Hd1) as Hf2.
  set (k2 := Z.max 0 n2) in *.
  assert (Hk2 : 0 <= k2) by lia.
  assert (He''neg : e'' < 0) by (subst e'' k2 n2; lia).
  assert (P2 : 0 < 2 ^ k2) by (apply Z.pow_pos_nonneg; lia).
  assert (P2' : 0 < 2 ^ (- e'')) by (apply Z.pow_pos_nonneg; lia).
  assert (Hsplit2 : 2 ^ (- e') = 2 ^ k2 * 2 ^ (- e'')).
  { rewrite <- pow2_split by lia. f_equal. lia. }
  assert (Hm''0 : 0 <= shr_m mrs'') by (rewrite Hm''; apply Z.div_pos; lia).
  assert (Hbound : shr_m mrs'' < (B + 1) * 2 ^ (- e'')).
  { rewrite Hm''. apply Z.div_lt_upper_bound; [lia|]. rewrite Hsplit2 in Hm1. nia. }
  destruct (shr_m mrs'') as [|m''|m''].
  - exact I.
  - destruct (Z.leb e'' _) eqn:Hle.
    + split; assumption.
    + apply Z.leb_gt in Hle. unfold emax, prec in Hle. lia.
  - lia.
Qed.
End Bound.

Section UnitRange.
Local Open Scope float_scope.

Lemma int_below (B : Z) (p : float) :
  (0 <= B)%Z -> sf_below B (Prim2SF p) ->
  exists n, Py.int p = Py.Ok n /\ (- B <= n <= B)%Z.
Proof.
  intros HB. unfold Py.int, Py.to_integer.
  destruct (Prim2SF p) as [s|s| |s m e]; simpl sf_below; try contradiction.
  - intros _. exists 0%Z. split; [reflexivity|lia].
  - intros [He Hm].
    destruct (0 <=? e)%Z eqn:E; [apply Z.leb_le in E; lia|].
    assert (P : (0 < 2 ^ (- e))%Z) by (apply Z.pow_pos_nonneg; lia).
    assert (Q : (0 <= Z.pos m / 2 ^ (- e) <= B)%Z).
    { split; [apply Z.div_pos; lia|].
      assert (Z.pos m / 2 ^ (- e) < B + 1)%Z; [|lia].
      apply Z.div_lt_upper_bound; [lia|]. lia. }
    eexists. split; [reflexivity|].
    destruct s; unfold cond_Zopp.
    + rewrite Z.quot_opp_l by lia. rewrite Z.quot_div_nonneg by lia. lia.
    + rewrite Z.quot_div_nonneg by lia. lia.
Qed.

Lemma valid_mantissa_below (m : positive) (e : Z) :
  valid_binary (S754_finite false m e) = true -> (Z.pos m < 2 ^ 53)%Z.
Proof.
  unfold SpecFloat.valid_binary, bounded, canonical_mantissa, fexp, SpecFloat.emin.
  unfold prec, emax.
  intros H. apply andb_true_iff in H as [H _]. apply Z.eqb_eq in H.
  pose proof (digits2_pos_upper m) as U.
  assert (Z.pos (digits2_pos m) <= 53)%Z by lia.
  assert (2 ^ Z.pos (digits2_pos m) <= 2 ^ 53)%Z by (apply Z.pow_le_mono_r; lia).
  lia.
Qed.

(** A sample of magnitude at most 1, scaled by 32767, truncates into
    [-32767, 32767]. *)
Lemma unit_sample_in_range (v : float) :
  (abs v <=? 1) = true ->
  exists n, Py.int (v * 32767) = Py.Ok n /\ (-32767 <= n <= 32767)%Z.
Proof.
  intros Hle. apply (int_below 32767); [lia|].
  rewrite mul_spec.
  pose proof (Prim2SF_valid v) as Hvalid.
  rewrite FloatAxioms.leb_spec, abs_spec in Hle.
  change (Prim2SF 1) with (S754_finite false 4503599627370496 (-52)) in Hle.
  change (Prim2SF 32767) with (S754_finite false 9006924376834048 (-38)).
  destruct (Prim2SF v) as [s|s| |s m e]; try discriminate.
  - exact I.
  - assert (Hm : (e <= -52 /\ Z.pos m <= 2 ^ (- e))%Z).
    { assert (V : (Z.pos m < 2 ^ 53)%Z)
        by (apply (valid_mantissa_below m e); destruct s; exact Hvalid).
      unfold SFleb in Hle. simpl SFabs in Hle. cbn [SFcompare] in Hle.
      destruct (e ?= -52)%Z eqn:Ecmp; try discriminate.
      - apply Z.compare_eq in Ecmp. subst e. split; [lia|].
        replace (2 ^ (- -52))%Z with 4503599627370496%Z by reflexivity.
        destruct (Pos.compare_cont Eq m 4503599627370496) eqn:Pc; try discriminate.
        + apply (Pos.compare_eq_iff m) in Pc. subst m. lia.
        + assert (Z.pos m < 4503599627370496)%Z
            by (apply (Pos.compare_lt_iff m); exact Pc).
          lia.
      - change (e < -52)%Z in Ecmp. split; [lia|].
        assert (2 ^ 53 <= 2 ^ (- e))%Z by (apply Z.pow_le_mono_r; lia). lia. }
    destruct Hm as [He Hm].
    unfold SF64mul, SFmul.
    apply binary_round_aux_below; try lia.
    rewrite Pos2Z.inj_mul.
    change (Z.pos 9006924376834048) with (32767 * 2 ^ 38)%Z.
    replace (- (e + -38))%Z with (- e + 38)%Z by lia.
    rewrite pow2_split by lia. nia.
Qed.

End UnitRange.

(* ================================================================== *)
(** * Slices and the loop over the bars *)
(* ================================================================== *)

Section Lists.
Context {A : Type}.

Lemma nth_error_enumerate_from (l : list A) (k i : nat) :
  nth_error (Py.enumerate_from k l) i =
  option_map (fun a => ((k + i)%nat, a)) (nth_error l i).
Proof.
  revert k i. induction l as [|a l IH]; intros k [|i]; simpl; try reflexivity.
  - now rewrite Nat.add_0_r.
  - rewrite IH. now rewrite Nat.add_succ_r.
Qed.

Lemma length_enumerate_from (l : list A) (k : nat) :
  length (Py.enumerate_from k l) = length l.
Proof. revert k. induction l; intros k; simpl; auto. Qed.

(** A slice whose bounds lie inside the list, in order. *)
Lemma slice_inside (l : list A) (lo hi : Z) :
  0 <= lo -> lo <= hi -> hi <= Z.of_nat (length l) ->
  Py.slice l lo hi = firstn (Z.to_nat (hi - lo)) (skipn (Z.to_nat lo) l).
Proof.
  intros Hlo Hle Hhi. unfold Py.slice, Py.slice_index.
  destruct (lo <? 0) eqn:E1; [apply Z.ltb_lt in E1; lia|].
  destruct (hi <? 0) eqn:E2; [apply Z.ltb_lt in E2; lia|].
  rewrite !Z.min_l by lia. reflexivity.
Qed.

Lemma length_slice_inside (l : list A) (lo hi : Z) :
  0 <= lo -> lo <= hi -> hi <= Z.of_nat (length l) ->
  Z.of_nat (length (Py.slice l lo hi)) = hi - lo.
Proof.
  intros Hlo Hle Hhi. rewrite slice_inside by assumption.
  rewrite length_firstn, length_skipn. lia.
Qed.

Lemma nth_error_slice_inside (l : list A) (lo hi : Z) (i : nat) :
  0 <= lo -> lo <= hi -> hi <= Z.of_nat (length l) ->
  Z.of_nat i < hi - lo ->
  nth_error (Py.slice l lo hi) i = nth_error l (Z.to_nat lo + i).
Proof.
  intros Hlo Hle Hhi Hi. rewrite slice_inside by assumption.
  rewrite nth_error_firstn, nth_error_skipn.
  destruct (i <? Z.to_nat (hi - lo))%nat eqn:E; [reflexivity|].
  apply Nat.ltb_ge in E. lia.
Qed.

End Lists.

Section BarLoop.
Import AudioVisualizer.

Lemma float_of_int_10 : Py.float_of_int 10 = 10%float.
Proof. vm_compute. reflexivity. Qed.

Lemma float_of_int_32767 : Py.float_of_int 32767 = 32767%float.
Proof. vm_compute. reflexivity. Qed.

Lemma tenth_leb_tenth : (0.1 <=? 0.1)%float = true.
Proof. vm_compute. reflexivity. Qed.

Lemma length_update_bars (chunk : list float) (bars : list Panda.NodePath) :
  length (update_bars chunk bars) = length bars.
Proof.
  unfold update_bars, Py.enumerate.
  now rewrite length_map, length_enumerate_from.
Qed.

Lemma nth_error_update_bars (chunk : list float) (bars : list Panda.NodePath)
  (i : nat) :
  nth_error (update_bars chunk bars) i =
  option_map (update_bar chunk i) (nth_error bars i).
Proof.
  unfold update_bars, Py.enumerate.
  rewrite nth_error_map, nth_error_enumerate_from.
  destruct (nth_error bars i); reflexivity.
Qed.

(** A bar whose index has a sample in the chunk is rescaled from it. *)
Lemma update_bar_hit (chunk : list float) (i : nat) (bar : Panda.NodePath)
  (sample : float) :
  nth_error chunk i = Some sample ->
  update_bar chunk i bar =
  Panda.setScale bar (Panda.x (Panda.scale bar)) 0.1
    (Py.max 0.1 (abs sample * 10)%float).
Proof.
  intros H. unfold update_bar.
  assert (i < length chunk)%nat by (apply nth_error_Some; congruence).
  destruct (Z.of_nat i <? Z.of_nat (length chunk)) eqn:E;
    [|apply Z.ltb_ge in E; lia].
  rewrite H, float_of_int_10. reflexivity.
Qed.

(** A bar whose index is past the chunk is left as it is. *)
Lemma update_bar_miss (chunk : list float) (i : nat) (bar : Panda.NodePath) :
  nth_error chunk i = None -> update_bar chunk i bar = bar.
Proof.
  intros H. unfold update_bar. rewrite H. now destruct (_ <? _).
Qed.

Lemma update_bar_cases (chunk : list float) (i : nat) (bar : Panda.NodePath) :
  update_bar chunk i bar = bar \/
  exists sample,
    nth_error chunk i = Some sample /\
    update_bar chunk i bar =
    Panda.setScale bar (Panda.x (Panda.scale bar)) 0.1
      (Py.max 0.1 (abs sample * 10)%float).
Proof.
  destruct (nth_error chunk i) as [sample|] eqn:E.
  - right. exists sample. split; [reflexivity|]. now apply update_bar_hit.
  - left. now apply update_bar_miss.
Qed.

(** The update of one bar writes the depth 0.1 it already has, the width it
    reads back, and a height. *)
Lemma update_bar_same_but_height (chunk : list float) (i : nat)
  (bar : Panda.NodePath) :
  Panda.y (Panda.scale bar) = 0.1%float ->
  same_but_height bar (update_bar chunk i bar).
Proof.
  intros Hy. destruct (update_bar_cases chunk i bar) as [-> | (sample & _ & ->)].
  - repeat split.
  - unfold same_but_height. simpl. rewrite Hy. repeat split.
Qed.

Lemma update_bar_keeps_ready (chunk : list float) (i : nat)
  (bar : Panda.NodePath) :
  Panda.y (Panda.scale bar) = 0.1%float /\
  (0.1 <=? height_of bar)%float = true ->
  Panda.y (Panda.scale (update_bar chunk i bar)) = 0.1%float /\
  (0.1 <=? height_of (update_bar chunk i bar))%float = true.
Proof.
  intros [Hy Hz]. destruct (update_bar_cases chunk i bar) as [-> | (sample & _ & ->)].
  - now split.
  - split; [reflexivity|]. unfold height_of. simpl.
    apply max_ge_left, tenth_leb_tenth.
Qed.

Lemma update_from_same_but_height (chunk : list float)
  (bars : list Panda.NodePath) (k : nat) :
  Forall (fun bar => Panda.y (Panda.scale bar) = 0.1%float) bars ->
  Forall2 same_but_height bars
    (map (fun ib => update_bar chunk (fst ib) (snd ib)) (Py.enumerate_from k bars)).
Proof.
  intros H. revert k. induction H as [|bar bars Hbar _ IH]; intros k; simpl.
  - constructor.
  - constructor; [now apply update_bar_same_but_height | apply IH].
Qed.

Lemma update_from_keeps_ready (chunk : list float)
  (bars : list Panda.NodePath) (k : nat) :
  Forall (fun bar => Panda.y (Panda.scale bar) = 0.1%float /\
                     (0.1 <=? height_of bar)%float = true) bars ->
  Forall (fun bar => Panda.y (Panda.scale bar) = 0.1%float /\
                     (0.1 <=? height_of bar)%float = true)
    (map (fun ib => update_bar chunk (fst ib) (snd ib)) (Py.enumerate_from k bars)).
Proof.
  intros H. revert k. induction H as [|bar bars Hbar _ IH]; intros k; simpl.
  - constructor.
  - constructor; [now apply update_bar_keeps_ready | apply IH].
Qed.

End BarLoop.

(* ================================================================== *)
(** * [__init__] *)
(* ================================================================== *)

Section Init.
Import World AudioVisualizer.

Lemma create_bars_spec (items : list Z) (self : Self) (log : list event) :
  for_each items create_bar self log =
  (Py.Ok (set_bars (bars self ++ map (bar_at (num_bars self)) items) self),
   log ++ Startup.bar_events items).
Proof.
  revert self log. induction items as [|i items IH]; intros self log; simpl.
  - unfold ret, set_bars. rewrite !app_nil_r. now destruct self.
  - unfold bind at 1. unfold create_bar at 1. unfold bind, call, ret.
    rewrite IH. unfold set_bars; simpl. rewrite <- !app_assoc. reflexivity.
Qed.

Lemma prepare_bars_spec (self : Self) (log : list event) :
  prepare_bars self log =
  (Py.Ok (set_bars (map (bar_at 64) (Py.range 64)) (set_num_bars 64 self)),
   log ++ Startup.bar_events (Py.range 64)).
Proof.
  unfold prepare_bars. rewrite create_bars_spec. reflexivity.
Qed.

Lemma setup_scene_spec (log : list event) :
  setup_scene log = (Py.Ok tt, log ++ Startup.scene_events).
Proof.
  unfold setup_scene, bind, call, Startup.scene_events.
  rewrite <- !app_assoc. reflexivity.
Qed.

Lemma play_audio_spec (w : env) (self : Self) (log : list event) :
  play_audio w self log =
  (Py.Ok (match sa_play_buffer w (playback_data self) 1 2 (sample_rate self) with
          | Py.Ok obj => set_playback_obj (Some obj) self
          | Py.Raise _ => self
          end),
   log ++ [PlayBuffer (playback_data self) 1 2 (sample_rate self)]
       ++ snd (Startup.submit w (playback_data self) (sample_rate self))).
Proof.
  unfold play_audio, try_except, bind, call, lift, print, ret, Startup.submit.
  destruct (sa_play_buffer w _ 1 2 _) as [obj|e]; simpl.
  - reflexivity.
  - rewrite <- app_assoc. reflexivity.
Qed.

(** [__init__] returns, whatever the decoder and the audio device do. *)
Lemma init_spec (w : env) (file : string) (log : list event) :
  __init__ w file log =
  (Py.Ok (Startup.object w file), log ++ Startup.events w file).
Proof.
  unfold __init__, Startup.object, Startup.events, Startup.decode.
  unfold bind at 1. unfold call at 1.
  unfold bind at 1. unfold call at 1.
  unfold bind at 1. unfold call at 1.
  unfold bind at 1. unfold try_except, lift.
  destruct (sf_read w file) as [[raw rate]|e]; cbn [fst snd].
  - unfold bind at 1. rewrite play_audio_spec. cbn [playback_data sample_rate].
    unfold bind at 1. rewrite setup_scene_spec.
    unfold bind at 1. rewrite prepare_bars_spec.
    unfold bind, call, ret, Startup.submit.
    destruct (sa_play_buffer w _ 1 2 rate) as [obj|e]; cbn [fst snd];
      rewrite <- !app_assoc; reflexivity.
  - unfold bind at 1, print, call, ret.
    unfold bind at 1. rewrite play_audio_spec. cbn [playback_data sample_rate].
    unfold bind at 1. rewrite setup_scene_spec.
    unfold bind at 1. rewrite prepare_bars_spec.
    unfold bind, call, ret, Startup.submit.
    destruct (sa_play_buffer w _ 1 2 44100) as [obj|e']; cbn [fst snd];
      rewrite <- !app_assoc; reflexivity.
Qed.

End Init.

(* ================================================================== *)
(** * The frame task and the states it goes through *)
(* ================================================================== *)

Section FrameTask.
Import World AudioVisualizer.

(** The two ways [update_visualization] returns. *)
Lemma update_inv (self self' : Self) (t : float) (status : Panda.task_status) :
  update_visualization self t = Py.Ok (status, self') ->
  exists s,
    start_sample self t = Py.Ok s /\
    ((status = Panda.Task_done /\ self' = self /\
      s + num_bars self >= Z.of_nat (length (audio_data self))) \/
     (status = Panda.Task_cont /\
      s + num_bars self < Z.of_nat (length (audio_data self)) /\
      self' = set_bars
                (update_bars (Py.slice (audio_data self) s (s + num_bars self))
                   (bars self)) self)).
Proof.
  unfold update_visualization.
  destruct (start_sample self t) as [s|e]; [|discriminate].
  intros H. exists s. split; [reflexivity|].
  destruct (s + num_bars self >=? Z.of_nat (length (audio_data self))) eqn:E;
    injection H as <- <-.
  - left. apply Z.geb_le in E. repeat split. lia.
  - right. rewrite Z.geb_leb in E. apply Z.leb_gt in E. repeat split. lia.
Qed.

(** The task writes the bars and nothing else of the object. *)
Lemma update_keeps_fields (self self' : Self) (t : float)
  (status : Panda.task_status) :
  update_visualization self t = Py.Ok (status, self') ->
  audio_file self' = audio_file self /\
  audio_data self' = audio_data self /\
  sample_rate self' = sample_rate self /\
  playback_data self' = playback_data self /\
  playback_obj self' = playback_obj self /\
  num_bars self' = num_bars self.
Proof.
  intros H. apply update_inv in H as (s & _ & [(_ & -> & _) | (_ & _ & ->)]);
    repeat split.
Qed.

Lemma object_ready (w : env) (file : string) : bars_ready (Startup.object w file).
Proof.
  unfold bars_ready, Startup.object.
  destruct (fst (Startup.decode w file)) as [raw rate]. cbn [num_bars bars].
  split; [reflexivity|]. split; [reflexivity|].
  apply Forall_map, Forall_forall. intros i _. split; [reflexivity|].
  exact tenth_leb_tenth.
Qed.

Lemma update_keeps_ready (self self' : Self) (t : float)
  (status : Panda.task_status) :
  bars_ready self ->
  update_visualization self t = Py.Ok (status, self') ->
  bars_ready self'.
Proof.
  intros (Hn & Hlen & Hall) H.
  apply update_inv in H as (s & _ & [(_ & -> & _) | (_ & _ & ->)]).
  - now repeat split.
  - unfold bars_ready. cbn [set_bars num_bars bars].
    rewrite length_update_bars. repeat split; try assumption.
    now apply update_from_keeps_ready.
Qed.

(** Every state of the application has its 64 bars, of depth 0.1 and of
    height at least 0.1. *)
Lemma reachable_ready (w : env) (self : Self) : reachable w self -> bars_ready self.
Proof.
  induction 1 as [file log log' self Hinit | self self' t status _ IH Hstep].
  - rewrite init_spec in Hinit. injection Hinit as <- _. apply object_ready.
  - now apply update_keeps_ready with (2 := Hstep).
Qed.

(** The offset of line 132 is not negative when neither the elapsed time
    nor the sample rate is. *)
Lemma start_sample_nonneg (self : Self) (t : float) (s : Z) :
  (0 <=? t)%float = true -> 0 <= sample_rate self ->
  start_sample self t = Py.Ok s -> 0 <= s.
Proof.
  intros Ht Hr. unfold start_sample. apply int_nonneg.
  apply mul_nonneg; [now apply leb_zero_nonneg | now apply float_of_int_nonneg].
Qed.

(** Past the guard of line 135 the chunk is the 64 samples from the offset. *)
Lemma chunk_inside (self : Self) (s : Z) (i : nat) :
  0 <= s -> num_bars self = 64 ->
  s + 64 < Z.of_nat (length (audio_data self)) ->
  length (Py.slice (audio_data self) s (s + 64)) = 64%nat /\
  ((i < 64)%nat ->
   nth_error (Py.slice (audio_data self) s (s + 64)) i =
   nth_error (audio_data self) (Z.to_nat s + i) /\
   exists sample, nth_error (audio_data self) (Z.to_nat s + i) = Some sample).
Proof.
  intros Hs Hn Hlen. split.
  - pose proof (length_slice_inside (audio_data self) s (s + 64)) as L. lia.
  - intros Hi. split.
    + apply nth_error_slice_inside; lia.
    + destruct (nth_error (audio_data self) (Z.to_nat s + i)) as [sample|] eqn:E.
      * now exists sample.
      * apply nth_error_None in E. lia.
Qed.

End FrameTask.

(* ================================================================== *)
(** * The properties of the specification *)
(* ================================================================== *)

Section Conversion.
Import World AudioVisualizer.

Lemma length_to_playback (w : env) (audio : list float) :
  length (to_playback w audio) = length audio.
Proof. unfold to_playback, Np.mul_scalar. now rewrite !length_map. Qed.

Lemma nth_error_to_playback (w : env) (audio : list float) (i : nat) :
  nth_error (to_playback w audio) i =
  option_map (fun v => Np.cast_int16 (c_cast_short w) (v * 32767)%float)
    (nth_error audio i).
Proof.
  unfold to_playback, Np.mul_scalar. rewrite !nth_error_map.
  rewrite float_of_int_32767. now destruct (nth_error audio i).
Qed.

(** C1, as the specification has it, fails: the sample 0.25 scales to
    8191.75, which [astype] turns into 8191, while [round] gives 8192 (and
    clipping leaves 8192 alone). *)
Lemma C1_round_counterexample :
  nth_error (to_playback Fixtures.stereo [0.25%float]) 0 = Some 8191 /\
  Spec.round (0.25 * 32767)%float = Py.Ok 8192 /\
  Spec.clip16 8192 = 8192.
Proof. repeat split; vm_compute; reflexivity. Qed.

(** C1, amended: the playback buffer has one sample per float sample, and
    sample [i] is [floatSample[i] * 32767] rounded toward zero (not to the
    nearest integer) whenever that integer lies in the 16-bit signed range
    [-32768, 32767], where clipping changes nothing; it does for every
    sample of magnitude at most 1. *)
Theorem C1_playback_truncates (w : env) (audio : list float) (i : nat)
  (v : float) :
  nth_error audio i = Some v ->
  length (to_playback w audio) = length audio /\
  (forall n,
     Spec.trunc (v * 32767)%float = Py.Ok n -> -32768 <= n <= 32767 ->
     nth_error (to_playback w audio) i = Some n /\ Spec.clip16 n = n) /\
  ((abs v <=? 1)%float = true ->
   exists n,
     Spec.trunc (v * 32767)%float = Py.Ok n /\ -32767 <= n <= 32767 /\
     nth_error (to_playback w audio) i = Some n).
Proof.
  intros Hv.
  assert (Hin : forall n,
             Spec.trunc (v * 32767)%float = Py.Ok n -> -32768 <= n <= 32767 ->
             nth_error (to_playback w audio) i = Some n).
  { intros n Hn Hrange.
    rewrite nth_error_to_playback, Hv. simpl. unfold Np.cast_int16.
    rewrite int_is_trunc, Hn. unfold Np.in_int16.
    destruct (-32768 <=? n) eqn:E1; [|apply Z.leb_gt in E1; lia].
    destruct (n <=? 32767) eqn:E2; [|apply Z.leb_gt in E2; lia].
    reflexivity. }
  split; [apply length_to_playback|]. split.
  - intros n Hn Hrange. split; [now apply Hin|]. unfold Spec.clip16. lia.
  - intros Hunit. destruct (unit_sample_in_range v Hunit) as (n & Hn & Hrange).
    rewrite int_is_trunc in Hn. exists n. repeat split; try lia; try assumption.
    apply Hin; [assumption | lia].
Qed.

Lemma C1_playback_truncates_witness :
  length (to_playback Fixtures.stereo [0.25; -0.6]%float) = 2%nat /\
  (forall n,
     Spec.trunc (-0.6 * 32767)%float = Py.Ok n -> -32768 <= n <= 32767 ->
     nth_error (to_playback Fixtures.stereo [0.25; -0.6]%float) 1 = Some n /\
     Spec.clip16 n = n) /\
  ((abs (-0.6) <=? 1)%float = true ->
   exists n,
     Spec.trunc (-0.6 * 32767)%float = Py.Ok n /\ -32767 <= n <= 32767 /\
     nth_error (to_playback Fixtures.stereo [0.25; -0.6]%float) 1 = Some n).
Proof.
  apply (C1_playback_truncates Fixtures.stereo [0.25; -0.6]%float 1 (-0.6)%float).
  reflexivity.
Defined.

(** The second sample of that buffer: -0.6 scales to -19660.2. *)
Example playback_of_minus_six_tenths :
  to_playback Fixtures.stereo [0.25; -0.6]%float = [8191; -19660].
Proof. vm_compute. reflexivity. Qed.

End Conversion.

Section Offset.
Import World AudioVisualizer.

(** A float that is neither a NaN nor an infinity has an integral part. *)
Lemma to_integer_finite (divide : Z -> Z -> Z) (x : float) :
  is_finite x = true -> exists n, Py.to_integer divide x = Py.Ok n.
Proof.
  unfold is_finite, Py.to_integer, Prim2SF. intros H.
  apply negb_true_iff, orb_false_iff in H as [Hnan Hinf].
  rewrite Hnan. destruct (is_zero x); [eauto|]. rewrite Hinf.
  destruct (Z.frexp x) as [r ex].
  destruct (shr_fexp _ _ _ _ _) as [mrs e'].
  destruct (shr_m mrs); eauto.
Qed.



(** Why the sign matters: below zero truncation and floor part ways. *)
Example int_above_floor_below_zero :
  Py.int (-0.5)%float = Py.Ok 0 /\ Spec.floor (-0.5)%float = Py.Ok (-1).
Proof. split; vm_compute; reflexivity. Qed.

Example start_sample_stereo : start_sample Fixtures.stereo_app 0.012 = Py.Ok 96.
Proof. vm_compute. reflexivity. Qed.

End Offset.

Section Main.
Import World AudioVisualizer.

(** C9: when the hardcoded input file does not exist, [main] prints the
    file-not-found message and the hint and returns: nothing else is called
    (no window, no audio device, no scene) and no application object is
    built. *)
Theorem C9_missing_file_returns_early (w : env) (log : list event) :
  os_path_exists w "LTJ Bukem - Atlantis [-g3RUnx9svM].mp3" = false ->
  main w log =
  (Py.Ok None,
   log ++ [Print "Error: File not found - LTJ Bukem - Atlantis [-g3RUnx9svM].mp3";
           Print "Please update the audio_file path in the script"]).
Proof.
  intros H. unfold main. rewrite H. cbn [negb].
  unfold bind, print, call, ret. rewrite <- app_assoc. reflexivity.
Qed.

Lemma C9_missing_file_returns_early_witness :
  main Fixtures.missing [] =
  (Py.Ok None,
   [] ++ [Print "Error: File not found - LTJ Bukem - Atlantis [-g3RUnx9svM].mp3";
          Print "Please update the audio_file path in the script"]).
Proof.
  apply (C9_missing_file_returns_early Fixtures.missing []). reflexivity.
Defined.

(** The whole script on a machine without the file: four lines printed. *)
Example script_without_the_file :
  script Fixtures.missing [] =
  (Py.Ok None,
   [Print "Required libraries:";
    Print "pip install numpy soundfile panda3d simpleaudio";
    Print "Error: File not found - LTJ Bukem - Atlantis [-g3RUnx9svM].mp3";
    Print "Please update the audio_file path in the script"]).
Proof. reflexivity. Qed.

(** When the file exists [main] does build the application. *)
Lemma main_builds_the_application (w : env) (log : list event) :
  os_path_exists w "LTJ Bukem - Atlantis [-g3RUnx9svM].mp3" = true ->
  exists r final,
    main w log = (r, final) /\
    exists rest,
      final =
      log ++ Startup.events w "LTJ Bukem - Atlantis [-g3RUnx9svM].mp3"
          ++ [Run] ++ rest.
Proof.
  intros H. unfold main. rewrite H. cbn [negb].
  unfold bind at 1. rewrite init_spec.
  unfold bind, run, call, lift, ret.
  destruct (task_loop _ _) as [app|e]; do 2 eexists; (split; [reflexivity|]);
    exists []; now rewrite <- !app_assoc.
Qed.

Lemma silence_to_playback (w : env) (n : nat) :
  to_playback w (repeat 0%float n) = repeat 0 n.
Proof.
  unfold to_playback, Np.mul_scalar. rewrite !map_repeat. f_equal.
Qed.

(** C8: when decoding raises, [__init__] still returns: the samples are
    1024 zeros at 44100 Hz, the zeros are submitted for playback, the scene
    is set up, the 64 bars are created and the frame task is scheduled; and
    [main], when the file exists, goes on into the main loop. *)
Theorem C8_decode_failure_falls_back (w : env) (file : string) (e : Py.exn)
  (log : list event) :
  sf_read w file = Py.Raise e ->
  (exists self,
     __init__ w file log =
     (Py.Ok self,
      log ++ [ShowBaseInit; RequestProperties "Audio Visualizer"; DisableMouse;
              Print ("Error loading audio file: " ++ Py.exn_msg e)%string;
              PlayBuffer (repeat 0 1024) 1 2 44100]
          ++ snd (Startup.submit w (repeat 0 1024) 44100)
          ++ Startup.scene_events
          ++ Startup.bar_events (Py.range 64)
          ++ [TaskMgrAdd "UpdateVisualization"]) /\
     audio_data self = repeat 0%float 1024 /\
     sample_rate self = 44100 /\
     playback_data self = repeat 0 1024 /\
     length (bars self) = 64%nat) /\
  (file = "LTJ Bukem - Atlantis [-g3RUnx9svM].mp3"%string ->
   os_path_exists w file = true ->
   exists r final, main w log = (r, final) /\ In Run final).
Proof.
  intros Hread. split.
  - exists (Startup.object w file). rewrite init_spec.
    unfold Startup.events, Startup.object, Startup.decode. rewrite Hread.
    cbn [fst snd Np.zeros to_mono audio_data sample_rate playback_data bars].
    rewrite silence_to_playback. repeat split.
  - intros -> Hexists.
    destruct (main_builds_the_application w log Hexists)
      as (r & final & Hmain & rest & ->).
    eexists r, _. split; [exact Hmain|].
    apply in_or_app; right. apply in_or_app; right. apply in_or_app; left.
    now left.
Qed.

Lemma C8_decode_failure_falls_back_witness :
  (exists self,
     __init__ Fixtures.undecodable "LTJ Bukem - Atlantis [-g3RUnx9svM].mp3" [] =
     (Py.Ok self,
      [] ++ [ShowBaseInit; RequestProperties "Audio Visualizer"; DisableMouse;
             Print ("Error loading audio file: "
                    ++ Py.exn_msg (Py.Exception "LibsndfileError"
                                     "Format not recognised."))%string;
             PlayBuffer (repeat 0 1024) 1 2 44100]
          ++ snd (Startup.submit Fixtures.undecodable (repeat 0 1024) 44100)
          ++ Startup.scene_events
          ++ Startup.bar_events (Py.range 64)
          ++ [TaskMgrAdd "UpdateVisualization"]) /\
     audio_data self = repeat 0%float 1024 /\
     sample_rate self = 44100 /\
     playback_data self = repeat 0 1024 /\
     length (bars self) = 64%nat) /\
  ("LTJ Bukem - Atlantis [-g3RUnx9svM].mp3"%string =
   "LTJ Bukem - Atlantis [-g3RUnx9svM].mp3"%string ->
   os_path_exists Fixtures.undecodable "LTJ Bukem - Atlantis [-g3RUnx9svM].mp3" = true ->
   exists r final, main Fixtures.undecodable [] = (r, final) /\ In Run final).
Proof.
  apply (C8_decode_failure_falls_back Fixtures.undecodable
           "LTJ Bukem - Atlantis [-g3RUnx9svM].mp3"
           (Py.Exception "LibsndfileError" "Format not recognised.") []).
  reflexivity.
Defined.

(** The session of the undecodable file, run: every frame finds silence. *)
Example undecodable_session :
  exists app final,
    main Fixtures.undecodable [] = (Py.Ok (Some app), final) /\
    map height_of (bars app) = repeat 0.1%float 64 /\
    last final Run = Run.
Proof. do 2 eexists. vm_compute. repeat split. Qed.

End Main.

Section Downmix.
Import World AudioVisualizer.

(** An array has more than one dimension exactly when it has channels. *)
Lemma ndim_above_one (raw : Np.ndarray) :
  1 < Np.ndim raw <-> exists channels rows, raw = Np.Array2D channels rows.
Proof.
  destruct raw as [data|channels rows]; simpl; split.
  - lia.
  - intros (c & r & H). discriminate.
  - intros _. now exists channels, rows.
  - lia.
Qed.


(** The mean of a stereo frame. *)
Lemma mean_row_stereo (left right : float) :
  Np.mean_row 2 [left; right] = ((left + right) / 2)%float.
Proof. reflexivity. Qed.



(** Frame 100 of the stereo session is (0.78125, -0.390625): its mean. *)
Example stereo_frame_100 :
  nth_error (audio_data Fixtures.stereo_app) 100 = Some 0.1953125%float.
Proof. vm_compute. reflexivity. Qed.

End Downmix.

Section RunningFrame.
Import World AudioVisualizer.
Local Open Scope float_scope.

Lemma stereo_app_reachable : reachable Fixtures.stereo Fixtures.stereo_app.
Proof. exact (reach_init _ "clip.wav" [] _ _ (init_spec _ _ _)). Qed.

Lemma undecodable_app_reachable :
  reachable Fixtures.undecodable Fixtures.undecodable_app.
Proof. exact (reach_init _ "clip.wav" [] _ _ (init_spec _ _ _)). Qed.

(** A frame past the guard, in a state of the application, at an offset
    that is not negative: what the update does to bar [i]. *)
Lemma running_frame (self : Self) (s : Z) (i : nat) :
  bars_ready self -> (0 <= s)%Z ->
  (s + 64 < Z.of_nat (length (audio_data self)))%Z ->
  (i < 64)%nat ->
  exists sample bar,
    nth_error (Py.slice (audio_data self) s (s + num_bars self)) i = Some sample /\
    nth_error (audio_data self) (Z.to_nat s + i) = Some sample /\
    nth_error (bars self) i = Some bar /\
    nth_error
      (update_bars (Py.slice (audio_data self) s (s + num_bars self)) (bars self)) i =
    Some (Panda.setScale bar (Panda.x (Panda.scale bar)) 0.1
            (Py.max 0.1 (abs sample * 10))).
Proof.
  intros (Hn & Hlen & _) Hs Hguard Hi. rewrite Hn.
  destruct (chunk_inside self s i Hs Hn Hguard) as (_ & Hchunk).
  destruct (Hchunk Hi) as (Hnth & sample & Hsample).
  destruct (nth_error (bars self) i) as [bar|] eqn:Hbar;
    [|apply nth_error_None in Hbar; lia].
  exists sample, bar. rewrite Hnth. repeat split; try assumption.
  rewrite nth_error_update_bars, Hbar. simpl. f_equal.
  apply update_bar_hit. now rewrite Hnth.
Qed.

(** C3: in a running frame, at an elapsed time and a sample rate that are
    not negative, the height assigned to bar [i] is
    [max(0.1, |sample[startIndex + i]| * 10)]: it is one of the two, it is
    at least 0.1, and it is at least the scaled sample unless that is a NaN.
    No bar of the application is ever lower than 0.1. *)
Theorem C3_bar_height (w : env) (self self' : Self) (t : float) (i : nat) :
  reachable w self ->
  (0 <=? t) = true -> (0 <= sample_rate self)%Z ->
  update_visualization self t = Py.Ok (Panda.Task_cont, self') ->
  (i < 64)%nat ->
  (exists s sample bar',
     start_sample self t = Py.Ok s /\
     nth_error (audio_data self) (Z.to_nat s + i) = Some sample /\
     nth_error (bars self') i = Some bar' /\
     height_of bar' = Py.max 0.1 (abs sample * 10) /\
     (height_of bar' = 0.1 \/ height_of bar' = abs sample * 10) /\
     (0.1 <=? height_of bar') = true /\
     ((abs sample * 10 =? abs sample * 10) = true ->
      (abs sample * 10 <=? height_of bar') = true)) /\
  Forall (fun bar => (0.1 <=? height_of bar) = true) (bars self').
Proof.
  intros Hreach Ht Hrate Hupd Hi.
  pose proof (reachable_ready w self Hreach) as Hready.
  assert (Hready' : bars_ready self')
    by (apply (reachable_ready w); now apply reach_update with (2 := Hupd)).
  split.
  - apply update_inv in Hupd as (s & Hs & [(Hst & _) | (_ & Hguard & ->)]);
      [discriminate|].
    pose proof (start_sample_nonneg self t s Ht Hrate Hs) as Hpos.
    destruct Hready as (Hn & Hlen & Hall).
    rewrite Hn in Hguard.
    destruct (running_frame self s i (conj Hn (conj Hlen Hall)) Hpos Hguard Hi)
      as (sample & bar & _ & Hsample & _ & Hbar').
    exists s, sample, (Panda.setScale bar (Panda.x (Panda.scale bar)) 0.1
                         (Py.max 0.1 (abs sample * 10))).
    cbn [set_bars bars]. unfold height_of. cbn [Panda.setScale Panda.scale Panda.z].
    repeat split; try assumption.
    + apply max_cases.
    + apply max_ge_left, tenth_leb_tenth.
    + intros Hnum. now apply max_ge_right.
  - destruct Hready' as (_ & _ & Hall).
    eapply Forall_impl; [|exact Hall]. intros bar [_ H]. exact H.
Qed.

Lemma C3_bar_height_witness :
  (exists s sample bar',
     start_sample Fixtures.stereo_app 0.012 = Py.Ok s /\
     nth_error (audio_data Fixtures.stereo_app) (Z.to_nat s + 4) = Some sample /\
     nth_error
       (update_bars (Py.slice (audio_data Fixtures.stereo_app) 96 (96 + 64))
          (bars Fixtures.stereo_app)) 4 = Some bar' /\
     height_of bar' = Py.max 0.1 (abs sample * 10) /\
     (height_of bar' = 0.1 \/ height_of bar' = abs sample * 10) /\
     (0.1 <=? height_of bar') = true /\
     ((abs sample * 10 =? abs sample * 10) = true ->
      (abs sample * 10 <=? height_of bar') = true)) /\
  Forall (fun bar => (0.1 <=? height_of bar) = true)
    (update_bars (Py.slice (audio_data Fixtures.stereo_app) 96 (96 + 64))
       (bars Fixtures.stereo_app)).
Proof.
  apply (C3_bar_height Fixtures.stereo Fixtures.stereo_app
           (set_bars
              (update_bars (Py.slice (audio_data Fixtures.stereo_app) 96 (96 + 64))
                 (bars Fixtures.stereo_app))
              Fixtures.stereo_app)
           0.012 4).
  - exact stereo_app_reachable.
  - vm_compute. reflexivity.
  - vm_compute. discriminate.
  - vm_compute. reflexivity.
  - lia.
Defined.

(** Bar 4 of the stereo session at 0.012 s: sample 100, height 1.953125. *)
Example stereo_bar_4 :
  match update_visualization Fixtures.stereo_app 0.012 with
  | Py.Ok (_, self') => option_map height_of (nth_error (bars self') 4)
  | Py.Raise _ => None
  end = Some 1.953125.
Proof. vm_compute. reflexivity. Qed.

(** A bar that sits on a NaN sample gets the height 0.1. *)
Example nan_sample_height : Py.max 0.1 (abs nan * 10) = 0.1.
Proof. vm_compute. reflexivity. Qed.

End RunningFrame.

Section Bounds.
Import World AudioVisualizer.
Local Open Scope float_scope.

(** C10: when the frame update passes its guard
    ([startIndex + 64 < len(samples)]), at an elapsed time and a sample rate
    that are not negative, the chunk has exactly 64 elements, element [i] of
    it is [samples[startIndex + i]], which exists, so that the test
    [i < len(chunk)] holds for each of the 64 bars; the update returns
    [Task.cont] and every bar is rescaled from its sample. *)
Theorem C10_chunk_covers_every_bar (w : env) (self : Self) (t : float)
  (s : Z) (i : nat) :
  reachable w self ->
  (0 <=? t) = true -> (0 <= sample_rate self)%Z ->
  start_sample self t = Py.Ok s ->
  (s + 64 < Z.of_nat (length (audio_data self)))%Z ->
  (i < 64)%nat ->
  length (bars self) = 64%nat /\
  length (Py.slice (audio_data self) s (s + num_bars self)) = 64%nat /\
  (Z.of_nat i <? Z.of_nat (length (Py.slice (audio_data self) s (s + num_bars self))))%Z
  = true /\
  (Z.to_nat s + i < length (audio_data self))%nat /\
  exists sample bar self',
    nth_error (Py.slice (audio_data self) s (s + num_bars self)) i = Some sample /\
    nth_error (audio_data self) (Z.to_nat s + i) = Some sample /\
    update_visualization self t = Py.Ok (Panda.Task_cont, self') /\
    nth_error (bars self) i = Some bar /\
    nth_error (bars self') i =
    Some (Panda.setScale bar (Panda.x (Panda.scale bar)) 0.1
            (Py.max 0.1 (abs sample * 10))).
Proof.
  intros Hreach Ht Hrate Hs Hguard Hi.
  pose proof (reachable_ready w self Hreach) as Hready.
  pose proof (start_sample_nonneg self t s Ht Hrate Hs) as Hpos.
  destruct (running_frame self s i Hready Hpos Hguard Hi)
    as (sample & bar & Hchunk & Hsample & Hbar & Hbar').
  destruct Hready as (Hn & Hlen & _).
  destruct (chunk_inside self s i Hpos Hn Hguard) as (Hlen64 & _).
  rewrite Hn in *. rewrite Hlen64.
  split; [exact Hlen|]. split; [reflexivity|].
  split; [apply Z.ltb_lt; lia|]. split; [lia|].
  exists sample, bar,
    (set_bars (update_bars (Py.slice (audio_data self) s (s + 64)) (bars self)) self).
  repeat split; try assumption.
  unfold update_visualization. rewrite Hs, Hn.
  destruct (s + 64 >=? Z.of_nat (length (audio_data self)))%Z eqn:E;
    [apply Z.geb_le in E; lia | reflexivity].
Qed.

Lemma C10_chunk_covers_every_bar_witness :
  length (bars Fixtures.stereo_app) = 64%nat /\
  length (Py.slice (audio_data Fixtures.stereo_app) 96
            (96 + num_bars Fixtures.stereo_app)) = 64%nat /\
  (Z.of_nat 63 <?
   Z.of_nat (length (Py.slice (audio_data Fixtures.stereo_app) 96
                       (96 + num_bars Fixtures.stereo_app))))%Z = true /\
  (Z.to_nat 96 + 63 < length (audio_data Fixtures.stereo_app))%nat /\
  exists sample bar self',
    nth_error (Py.slice (audio_data Fixtures.stereo_app) 96
                 (96 + num_bars Fixtures.stereo_app)) 63 = Some sample /\
    nth_error (audio_data Fixtures.stereo_app) (Z.to_nat 96 + 63) = Some sample /\
    update_visualization Fixtures.stereo_app 0.012 = Py.Ok (Panda.Task_cont, self') /\
    nth_error (bars Fixtures.stereo_app) 63 = Some bar /\
    nth_error (bars self') 63 =
    Some (Panda.setScale bar (Panda.x (Panda.scale bar)) 0.1
            (Py.max 0.1 (abs sample * 10))).
Proof.
  apply (C10_chunk_covers_every_bar Fixtures.stereo Fixtures.stereo_app 0.012 96 63).
  - exact stereo_app_reachable.
  - vm_compute. reflexivity.
  - vm_compute. discriminate.
  - vm_compute. reflexivity.
  - vm_compute. reflexivity.
  - lia.
Defined.

(** Why the sign matters: in Python a negative offset counts from the end
    of the buffer, and the slice can come out empty. *)
Example negative_offset_empty_chunk :
  Py.slice (repeat 0 1024) (-10) (-10 + 64) = [].
Proof. vm_compute. reflexivity. Qed.

End Bounds.

Section Stopping.
Import World AudioVisualizer.

Lemma update_stops (self : Self) (t : float) (s : Z) :
  start_sample self t = Py.Ok s ->
  s + num_bars self >= Z.of_nat (length (audio_data self)) ->
  update_visualization self t = Py.Ok (Panda.Task_done, self).
Proof.
  intros Hs Hguard. unfold update_visualization. rewrite Hs.
  destruct (s + num_bars self >=? Z.of_nat (length (audio_data self))) eqn:E;
    [reflexivity|].
  rewrite Z.geb_leb in E. apply Z.leb_gt in E. lia.
Qed.

(** C2: in a state of the application, when
    [startIndex(t) + 64 >= len(samples)] the update at [t] returns
    [Task.done] and leaves the object, its bars included, as it was; the
    task manager, which drops a task that returned [Task.done], leaves it so
    through all later frames; and an update at any time whose offset is at
    least as large stops in the same way. *)
Theorem C2_stopped_is_absorbing (w : env) (self : Self) (t : float) (s : Z) :
  reachable w self ->
  start_sample self t = Py.Ok s ->
  s + 64 >= Z.of_nat (length (audio_data self)) ->
  update_visualization self t = Py.Ok (Panda.Task_done, self) /\
  (forall later, task_loop (t :: later) self = Py.Ok self) /\
  (forall t' s', start_sample self t' = Py.Ok s' -> s <= s' ->
     update_visualization self t' = Py.Ok (Panda.Task_done, self)).
Proof.
  intros Hreach Hs Hguard.
  destruct (reachable_ready w self Hreach) as (Hn & _ & _).
  assert (Hstop : update_visualization self t = Py.Ok (Panda.Task_done, self))
    by (apply update_stops with s; [exact Hs | lia]).
  split; [exact Hstop|]. split.
  - intros later. simpl. now rewrite Hstop.
  - intros t' s' Hs' Hle. apply update_stops with s'; [exact Hs' | lia].
Qed.

Lemma C2_stopped_is_absorbing_witness :
  update_visualization Fixtures.stereo_app 0.017 =
  Py.Ok (Panda.Task_done, Fixtures.stereo_app) /\
  (forall later, task_loop (0.017%float :: later) Fixtures.stereo_app =
                 Py.Ok Fixtures.stereo_app) /\
  (forall t' s', start_sample Fixtures.stereo_app t' = Py.Ok s' -> 136 <= s' ->
     update_visualization Fixtures.stereo_app t' =
     Py.Ok (Panda.Task_done, Fixtures.stereo_app)).
Proof.
  apply (C2_stopped_is_absorbing Fixtures.stereo Fixtures.stereo_app 0.017 136).
  - exact stereo_app_reachable.
  - vm_compute. reflexivity.
  - vm_compute. discriminate.
Defined.

(** The guard is [>=]: with 200 samples the offset 136 already stops the
    task, though 136 + 64 does not exceed 200, and 135 does not. *)
Example guard_at_the_boundary :
  start_sample Fixtures.stereo_app 0.017 = Py.Ok 136 /\
  length (audio_data Fixtures.stereo_app) = 200%nat /\
  start_sample Fixtures.stereo_app 0.0169 = Py.Ok 135 /\
  (exists self',
     update_visualization Fixtures.stereo_app 0.0169 =
     Py.Ok (Panda.Task_cont, self')).
Proof. repeat split; try (vm_compute; reflexivity). eexists. vm_compute. reflexivity. Qed.

(** The stereo session: the frames at 0, 0.004, ..., 0.016 s update the
    bars, the frame at 0.02 s stops the task, the frame at 0.024 s is not
    given to it. *)
Example stereo_session_stops :
  task_loop (frame_times Fixtures.stereo) Fixtures.stereo_app =
  task_loop [0; 0.004; 0.008; 0.012; 0.016]%float Fixtures.stereo_app.
Proof. vm_compute. reflexivity. Qed.

End Stopping.

Section Frame.
Import World AudioVisualizer.
Local Open Scope float_scope.

Lemma same_but_height_refl (bar : Panda.NodePath) : same_but_height bar bar.
Proof. repeat split. Qed.

Lemma Forall2_same_but_height_refl (bars : list Panda.NodePath) :
  Forall2 same_but_height bars bars.
Proof.
  induction bars; constructor; [apply same_but_height_refl | assumption].
Qed.

(** C6: an update, in any state of the application, leaves the bars in
    place and changes nothing of a bar but the height component of its
    scale: model, position, color, parent, and the width and depth
    components of the scale are after the update what they were before. *)
Theorem C6_only_the_height_changes (w : env) (self self' : Self) (t : float)
  (status : Panda.task_status) :
  reachable w self ->
  update_visualization self t = Py.Ok (status, self') ->
  Forall2 same_but_height (bars self) (bars self').
Proof.
  intros Hreach Hupd.
  destruct (reachable_ready w self Hreach) as (_ & _ & Hall).
  apply update_inv in Hupd as (s & _ & [(_ & -> & _) | (_ & _ & ->)]).
  - apply Forall2_same_but_height_refl.
  - cbn [set_bars bars]. apply update_from_same_but_height.
    eapply Forall_impl; [|exact Hall]. intros bar [H _]. exact H.
Qed.

Lemma C6_only_the_height_changes_witness :
  Forall2 same_but_height (bars Fixtures.stereo_app)
    (update_bars (Py.slice (audio_data Fixtures.stereo_app) 96 (96 + 64))
       (bars Fixtures.stereo_app)).
Proof.
  apply (C6_only_the_height_changes Fixtures.stereo Fixtures.stereo_app
           (set_bars
              (update_bars (Py.slice (audio_data Fixtures.stereo_app) 96 (96 + 64))
                 (bars Fixtures.stereo_app))
              Fixtures.stereo_app)
           0.012 Panda.Task_cont).
  - exact stereo_app_reachable.
  - vm_compute. reflexivity.
Defined.

(** The depth is written, with the constant it had: on a bar of another
    depth the update would change it. *)
Example depth_is_overwritten :
  Panda.y (Panda.scale
             (update_bar [0.5] 0
                (Panda.setScale (Panda.loadModel "misc/rgbCube") 0.4 0.3 0.1)))
  = 0.1.
Proof. vm_compute. reflexivity. Qed.

End Frame.

Section Determinism.
Import World AudioVisualizer.
Local Open Scope float_scope.

(** The heights a full chunk assigns do not depend on the bars. *)
Lemma heights_of_update (chunk : list float) (bars : list Panda.NodePath) :
  length chunk = length bars ->
  map height_of (update_bars chunk bars) =
  map (fun sample => Py.max 0.1 (abs sample * 10)) chunk.
Proof.
  intros Hlen. apply nth_error_ext. intros i.
  rewrite !nth_error_map, nth_error_update_bars.
  destruct (nth_error bars i) as [bar|] eqn:Hbar.
  - destruct (nth_error chunk i) as [sample|] eqn:Hsample.
    + simpl. now rewrite (update_bar_hit chunk i bar sample Hsample).
    + apply nth_error_None in Hsample.
      assert (i < length bars)%nat by (apply nth_error_Some; congruence). lia.
  - apply nth_error_None in Hbar.
    assert (E : nth_error chunk i = None) by (apply nth_error_None; lia).
    now rewrite E.
Qed.

(** C5: the update is a function of the elapsed time and of the sample
    buffer (and rate): from two states of the application with the same
    buffer, the update at the same [t] returns the same signal and, when it
    runs, assigns the same height to every bar, whatever the heights were
    before; and it leaves the buffer and the rate as they were. *)
Theorem C5_update_depends_on_time_and_buffer (w1 w2 : env) (self1 self2 : Self)
  (t : float) :
  reachable w1 self1 -> reachable w2 self2 ->
  audio_data self1 = audio_data self2 ->
  sample_rate self1 = sample_rate self2 ->
  (0 <=? t) = true -> (0 <= sample_rate self1)%Z ->
  match update_visualization self1 t, update_visualization self2 t with
  | Py.Ok (status1, self1'), Py.Ok (status2, self2') =>
      status1 = status2 /\
      (status1 = Panda.Task_cont ->
       map height_of (bars self1') = map height_of (bars self2')) /\
      (status1 = Panda.Task_done -> self1' = self1 /\ self2' = self2) /\
      audio_data self1' = audio_data self1 /\
      sample_rate self1' = sample_rate self1
  | Py.Raise e1, Py.Raise e2 => e1 = e2
  | _, _ => False
  end.
Proof.
  intros Hr1 Hr2 Haudio Hrate Ht Hpos.
  destruct (reachable_ready w1 self1 Hr1) as (Hn1 & Hlen1 & _).
  destruct (reachable_ready w2 self2 Hr2) as (Hn2 & Hlen2 & _).
  pose proof (start_sample_nonneg self1 t) as Hnonneg.
  unfold update_visualization.
  assert (Hstart : start_sample self2 t = start_sample self1 t)
    by (unfold start_sample; now rewrite Hrate).
  rewrite Hstart, <- Haudio, Hn1, Hn2.
  destruct (start_sample self1 t) as [s|e]; [|reflexivity].
  specialize (Hnonneg s Ht Hpos eq_refl).
  destruct (s + 64 >=? Z.of_nat (length (audio_data self1)))%Z eqn:E.
  - repeat split; discriminate.
  - rewrite Z.geb_leb in E. apply Z.leb_gt in E.
    assert (Hguard : (s + 64 < Z.of_nat (length (audio_data self1)))%Z) by lia.
    destruct (chunk_inside self1 s 0 Hnonneg Hn1 Hguard) as (Hchunk & _).
    cbn [set_bars bars audio_data sample_rate].
    repeat split; try discriminate.
    intros _. rewrite !heights_of_update; [reflexivity | lia | lia].
Qed.

Lemma C5_update_depends_on_time_and_buffer_witness :
  match
    update_visualization Fixtures.stereo_app 0.012,
    update_visualization
      (set_bars
         (update_bars (Py.slice (audio_data Fixtures.stereo_app) 32 (32 + 64))
            (bars Fixtures.stereo_app))
         Fixtures.stereo_app) 0.012
  with
  | Py.Ok (status1, self1'), Py.Ok (status2, self2') =>
      status1 = status2 /\
      (status1 = Panda.Task_cont ->
       map height_of (bars self1') = map height_of (bars self2')) /\
      (status1 = Panda.Task_done ->
       self1' = Fixtures.stereo_app /\
       self2' =
       set_bars
         (update_bars (Py.slice (audio_data Fixtures.stereo_app) 32 (32 + 64))
            (bars Fixtures.stereo_app))
         Fixtures.stereo_app) /\
      audio_data self1' = audio_data Fixtures.stereo_app /\
      sample_rate self1' = sample_rate Fixtures.stereo_app
  | Py.Raise e1, Py.Raise e2 => e1 = e2
  | _, _ => False
  end.
Proof.
  apply (C5_update_depends_on_time_and_buffer Fixtures.stereo Fixtures.stereo
           Fixtures.stereo_app
           (set_bars
              (update_bars (Py.slice (audio_data Fixtures.stereo_app) 32 (32 + 64))
                 (bars Fixtures.stereo_app))
              Fixtures.stereo_app)
           0.012).
  - exact stereo_app_reachable.
  - apply (reach_update Fixtures.stereo Fixtures.stereo_app _ 0.004 Panda.Task_cont).
    + exact stereo_app_reachable.
    + vm_compute. reflexivity.
  - reflexivity.
  - reflexivity.
  - vm_compute. reflexivity.
  - vm_compute. discriminate.
Defined.

(** The same frame twice: the second update changes nothing. *)
Lemma update_twice (self self' : Self) (t : float) (status : Panda.task_status) :
  update_visualization self t = Py.Ok (status, self') ->
  update_visualization self' t = Py.Ok (status, self').
Proof.
  intros Hupd. pose proof Hupd as Hinv.
  apply update_inv in Hinv as (s & Hs & [(-> & -> & _) | (-> & Hguard & ->)]);
    [exact Hupd|].
  unfold update_visualization in *. unfold start_sample in *.
  cbn [set_bars sample_rate num_bars audio_data bars]. rewrite Hs in *.
  destruct (s + num_bars self >=? Z.of_nat (length (audio_data self)))%Z;
    [discriminate|].
  do 2 f_equal. unfold set_bars. f_equal.
  apply nth_error_ext. intros i. rewrite !nth_error_update_bars.
  destruct (nth_error (bars self) i) as [bar|]; [|reflexivity]. simpl. f_equal.
  destruct (update_bar_cases
              (Py.slice (audio_data self) s (s + num_bars self)) i bar)
    as [E | (sample & Hsample & E)]; rewrite E.
  - exact E.
  - now rewrite (update_bar_hit _ i _ sample Hsample).
Qed.

End Determinism.

(* ================================================================== *)
(** * Beyond the specification: errors of the frame task *)
(* ================================================================== *)

Section Errors.
Import World AudioVisualizer.
Local Open Scope float_scope.

Lemma SFcompare_refl (x : spec_float) :
  x <> S754_nan -> SFcompare x x = Some Eq.
Proof.
  destruct x as [s|s| |s m e]; simpl; try congruence; intros _.
  - now destruct s.
  - destruct s; now rewrite Z.compare_refl, Pos.compare_cont_refl.
Qed.

Lemma is_nan_spec (p : float) : is_nan p = true <-> Prim2SF p = S754_nan.
Proof.
  unfold is_nan. rewrite FloatAxioms.eqb_spec. unfold SFeqb. split.
  - intros H. destruct (Prim2SF p) as [s|s| |s m e] eqn:E; try reflexivity;
      rewrite SFcompare_refl in H by discriminate; discriminate.
  - intros ->. reflexivity.
Qed.

Lemma is_infinity_spec (p : float) :
  is_infinity p = true <-> exists s, Prim2SF p = S754_infinity s.
Proof.
  unfold is_infinity. rewrite FloatAxioms.eqb_spec, abs_spec.
  change (Prim2SF infinity) with (S754_infinity false). unfold SFeqb. split.
  - destruct (Prim2SF p) as [s|s| |s m e]; simpl; try discriminate.
    intros _. now exists s.
  - intros [s ->]. reflexivity.
Qed.

Lemma int_of_nan (p : float) :
  is_nan p = true ->
  Py.int p = Py.Raise (Py.ValueError "cannot convert float NaN to integer").
Proof.
  intros H. apply is_nan_spec in H. unfold Py.int, Py.to_integer. now rewrite H.
Qed.

Lemma int_of_infinity (p : float) :
  is_infinity p = true ->
  Py.int p = Py.Raise (Py.OverflowError "cannot convert float infinity to integer").
Proof.
  intros H. apply is_infinity_spec in H as [s H].
  unfold Py.int, Py.to_integer. now rewrite H.
Qed.

(** X1: the frame task has no handler around [int(task.time * sample_rate)]:
    when that product is a NaN the update raises [ValueError], when it is an
    infinity it raises [OverflowError], and it returns exactly in the
    remaining case, a finite product; an exception of the update ends the
    session with that exception. *)
Theorem update_raises_on_non_finite_offset (self : Self) (t : float) :
  (is_nan (t * Py.float_of_int (sample_rate self)) = true ->
   update_visualization self t =
   Py.Raise (Py.ValueError "cannot convert float NaN to integer")) /\
  (is_infinity (t * Py.float_of_int (sample_rate self)) = true ->
   update_visualization self t =
   Py.Raise (Py.OverflowError "cannot convert float infinity to integer")) /\
  (is_finite (t * Py.float_of_int (sample_rate self)) = true ->
   exists status self', update_visualization self t = Py.Ok (status, self')) /\
  (forall e later, update_visualization self t = Py.Raise e ->
     task_loop (t :: later) self = Py.Raise e).
Proof.
  unfold update_visualization, start_sample. repeat split.
  - intros H. now rewrite (int_of_nan _ H).
  - intros H. now rewrite (int_of_infinity _ H).
  - intros H. destruct (to_integer_finite Z.quot _ H) as [n Hn].
    unfold Py.int. rewrite Hn.
    destruct (n + num_bars self >=? _)%Z; eauto.
  - intros e later H. simpl. unfold update_visualization, start_sample.
    now rewrite H.
Qed.

(** A clock that reads infinity stops the stereo session with an error. *)
Example infinite_time_raises :
  task_loop [0; infinity; 0.004] Fixtures.stereo_app =
  Py.Raise (Py.OverflowError "cannot convert float infinity to integer").
Proof. vm_compute. reflexivity. Qed.

End Errors.

(* ================================================================== *)
(** * Beyond the specification: whole sessions *)
(* ================================================================== *)

Section Sessions.
Import World AudioVisualizer.
Local Open Scope float_scope.

Lemma same_but_height_trans (a b c : Panda.NodePath) :
  same_but_height a b -> same_but_height b c -> same_but_height a c.
Proof.
  unfold same_but_height. intros (A1 & A2 & A3 & A4 & A5 & A6) (B1 & B2 & B3 & B4 & B5 & B6).
  repeat split; congruence.
Qed.

Lemma Forall2_same_but_height_trans (l1 l2 l3 : list Panda.NodePath) :
  Forall2 same_but_height l1 l2 -> Forall2 same_but_height l2 l3 ->
  Forall2 same_but_height l1 l3.
Proof.
  intros H. revert l3. induction H as [|a b l1 l2 Hab _ IH]; intros l3 H23.
  - inversion H23. constructor.
  - inversion H23 as [|b' c l2' l3' Hbc Hrest]; subst.
    constructor; [now apply same_but_height_trans with b | now apply IH].
Qed.

(** X2: over a whole session of the task manager that ends without an
    exception, whatever the frame times, the samples, the rate and the
    playback buffer and handle are as [__init__] left them, no bar was
    created or destroyed, every bar has the model, position, color, parent,
    width and depth it had, and no bar is lower than 0.1. *)
Theorem session_keeps_the_scene (w : env) (times : list float) (self final : Self) :
  reachable w self ->
  task_loop times self = Py.Ok final ->
  reachable w final /\
  audio_data final = audio_data self /\
  sample_rate final = sample_rate self /\
  playback_data final = playback_data self /\
  playback_obj final = playback_obj self /\
  Forall2 same_but_height (bars self) (bars final) /\
  Forall (fun bar => (0.1 <=? height_of bar) = true) (bars final).
Proof.
  revert self. induction times as [|t times IH]; intros self Hreach Hrun; simpl in Hrun.
  - injection Hrun as <-. repeat split; try assumption.
    + apply Forall2_same_but_height_refl.
    + destruct (reachable_ready w self Hreach) as (_ & _ & Hall).
      eapply Forall_impl; [|exact Hall]. now intros bar [_ H].
  - destruct (update_visualization self t) as [[status self']|e] eqn:Hupd;
      [|discriminate].
    pose proof (reach_update w self self' t status Hreach Hupd) as Hreach'.
    pose proof (update_keeps_fields self self' t status Hupd)
      as (_ & Ha & Hr & Hp & Ho & _).
    assert (Hstep : Forall2 same_but_height (bars self) (bars self')).
    { destruct (reachable_ready w self Hreach) as (_ & _ & Hall).
      apply update_inv in Hupd as (s & _ & [(_ & -> & _) | (_ & _ & ->)]).
      - apply Forall2_same_but_height_refl.
      - cbn [set_bars bars]. apply update_from_same_but_height.
        eapply Forall_impl; [|exact Hall]. now intros bar [H _]. }
    destruct status.
    + injection Hrun as <-. repeat split; try assumption.
      destruct (reachable_ready w self' Hreach') as (_ & _ & Hall).
      eapply Forall_impl; [|exact Hall]. now intros bar [_ H].
    + destruct (IH self' Hreach' Hrun) as (R & A & B & C & D & E & F).
      repeat split; try congruence; try assumption.
      now apply Forall2_same_but_height_trans with (bars self').
Qed.

Lemma session_keeps_the_scene_witness :
  reachable Fixtures.stereo Clips.stereo_final /\
  audio_data Clips.stereo_final = audio_data Fixtures.stereo_app /\
  sample_rate Clips.stereo_final = sample_rate Fixtures.stereo_app /\
  playback_data Clips.stereo_final = playback_data Fixtures.stereo_app /\
  playback_obj Clips.stereo_final = playback_obj Fixtures.stereo_app /\
  Forall2 same_but_height (bars Fixtures.stereo_app) (bars Clips.stereo_final) /\
  Forall (fun bar => (0.1 <=? height_of bar) = true) (bars Clips.stereo_final).
Proof.
  apply (session_keeps_the_scene Fixtures.stereo (frame_times Fixtures.stereo)
           Fixtures.stereo_app Clips.stereo_final).
  - exact stereo_app_reachable.
  - vm_compute. reflexivity.
Defined.

Lemma stops_at_update (self : Self) (t : float) :
  stops_at self t -> update_visualization self t = Py.Ok (Panda.Task_done, self).
Proof. intros (s & Hs & Hguard). now apply update_stops with s. Qed.

Lemma stops_at_after_update (self self' : Self) (t0 t : float)
  (status : Panda.task_status) :
  update_visualization self t0 = Py.Ok (status, self') ->
  stops_at self t -> stops_at self' t.
Proof.
  intros Hupd (s & Hs & Hguard).
  destruct (update_keeps_fields self self' t0 status Hupd) as (_ & Ha & Hr & _ & _ & Hn).
  exists s. unfold start_sample in *. rewrite Hr, Ha, Hn. now split.
Qed.

(** X3: once the guard of line 135 holds at a frame time [t], the session
    is the same whatever frames come after [t], and whatever frames came
    before it: the task is not called again. *)
Theorem frames_after_the_stop_are_ignored (self : Self) (before later : list float)
  (t : float) :
  stops_at self t ->
  task_loop (before ++ t :: later) self = task_loop (before ++ [t]) self.
Proof.
  revert self. induction before as [|t0 before IH]; intros self Hstop; simpl.
  - now rewrite (stops_at_update self t Hstop).
  - destruct (update_visualization self t0) as [[[] self']|e] eqn:Hupd; try reflexivity.
    apply IH. now apply stops_at_after_update with (1 := Hupd).
Qed.

Lemma frames_after_the_stop_are_ignored_witness :
  task_loop ([0; 0.004] ++ 0.02 :: [0.001; 0.008]) Fixtures.stereo_app =
  task_loop ([0; 0.004] ++ [0.02]) Fixtures.stereo_app.
Proof.
  apply (frames_after_the_stop_are_ignored Fixtures.stereo_app
           [0; 0.004] [0.001; 0.008] 0.02).
  exists 160%Z. split; vm_compute; [reflexivity | discriminate].
Defined.

(** X4: a clip of at most 64 samples (an empty one included) never
    animates: at any elapsed time that is not negative, with a rate that is
    not negative and a finite product, the first update already returns
    [Task.done] and leaves the object as it is, for the rest of the
    session. *)
Theorem short_clip_never_animates (w : env) (self : Self) (t : float)
  (later : list float) :
  reachable w self ->
  (length (audio_data self) <= 64)%nat ->
  (0 <=? t) = true -> (0 <= sample_rate self)%Z ->
  is_finite (t * Py.float_of_int (sample_rate self)) = true ->
  update_visualization self t = Py.Ok (Panda.Task_done, self) /\
  task_loop (t :: later) self = Py.Ok self.
Proof.
  intros Hreach Hlen Ht Hr Hfin.
  destruct (reachable_ready w self Hreach) as (Hn & _ & _).
  destruct (to_integer_finite Z.quot _ Hfin) as [s Hs].
  assert (Hpos : (0 <= s)%Z) by (now apply (start_sample_nonneg self t s)).
  assert (Hstop : update_visualization self t = Py.Ok (Panda.Task_done, self))
    by (apply update_stops with s; [exact Hs | lia]).
  split; [exact Hstop|]. simpl. now rewrite Hstop.
Qed.

Lemma short_clip_never_animates_witness :
  update_visualization Clips.short_app 0 = Py.Ok (Panda.Task_done, Clips.short_app) /\
  task_loop (0 :: [0.016; 0.033]) Clips.short_app = Py.Ok Clips.short_app.
Proof.
  apply (short_clip_never_animates Clips.short Clips.short_app 0 [0.016; 0.033]).
  - exact (reach_init _ "clip.wav" [] _ _ (init_spec _ _ _)).
  - vm_compute. repeat constructor.
  - vm_compute. reflexivity.
  - vm_compute. discriminate.
  - vm_compute. reflexivity.
Defined.

End Sessions.

(* ================================================================== *)
(** * Beyond the specification: quiet clips and successive frames *)
(* ================================================================== *)

Section Quiet.
Import World AudioVisualizer.
Local Open Scope float_scope.

Lemma In_slice {A : Type} (l : list A) (lo hi : Z) (a : A) :
  In a (Py.slice l lo hi) -> In a l.
Proof.
  unfold Py.slice. intros H. apply In_nth_error in H as [i Hi].
  rewrite nth_error_firstn in Hi. destruct (_ <? _)%nat; [|discriminate].
  rewrite nth_error_skipn in Hi. now apply nth_error_In in Hi.
Qed.

Lemma quiet_height (sample : float) :
  quiet sample = true -> Py.max 0.1 (abs sample * 10) = 0.1.
Proof.
  unfold quiet, Py.max. intros H. apply negb_true_iff in H. now rewrite H.
Qed.

Lemma setScale_flat (bar : Panda.NodePath) :
  Panda.y (Panda.scale bar) = 0.1 -> height_of bar = 0.1 ->
  Panda.setScale bar (Panda.x (Panda.scale bar)) 0.1 0.1 = bar.
Proof.
  destruct bar as [m p [sx sy sz] c pa]. unfold height_of. simpl.
  intros -> ->. reflexivity.
Qed.

Lemma quiet_update_bars (chunk : list float) (bars : list Panda.NodePath) :
  Forall (fun sample => quiet sample = true) chunk ->
  Forall (fun bar => Panda.y (Panda.scale bar) = 0.1 /\ height_of bar = 0.1) bars ->
  update_bars chunk bars = bars.
Proof.
  intros Hq Hflat. apply nth_error_ext. intros i. rewrite nth_error_update_bars.
  destruct (nth_error bars i) as [bar|] eqn:Hbar; [|reflexivity]. simpl. f_equal.
  rewrite Forall_forall in Hq, Hflat.
  destruct (Hflat bar (nth_error_In _ _ Hbar)) as [Hy Hz].
  destruct (update_bar_cases chunk i bar) as [E | (sample & Hs & E)];
    rewrite E; [reflexivity|].
  rewrite (quiet_height sample) by (apply Hq; now apply nth_error_In with i).
  now apply setScale_flat.
Qed.

Lemma quiet_update (self self' : Self) (t : float) (status : Panda.task_status) :
  Forall (fun sample => quiet sample = true) (audio_data self) ->
  Forall (fun bar => Panda.y (Panda.scale bar) = 0.1 /\ height_of bar = 0.1)
    (bars self) ->
  update_visualization self t = Py.Ok (status, self') -> self' = self.
Proof.
  intros Hq Hflat Hupd.
  apply update_inv in Hupd as (s & _ & [(_ & -> & _) | (_ & _ & ->)]);
    [reflexivity|].
  rewrite quiet_update_bars; [now destruct self | | assumption].
  rewrite Forall_forall in *. intros sample Hin. apply Hq.
  now apply In_slice in Hin.
Qed.

(** Silence is quiet. *)
Lemma zeros_are_quiet (n : nat) :
  Forall (fun sample => quiet sample = true) (repeat 0 n).
Proof. apply Forall_forall. intros s Hs. apply repeat_spec in Hs. now subst. Qed.

(** X5: when no sample of the clip is louder than 0.01 in the sense of
    line 145 (ten times its magnitude is not above 0.1; NaN samples count as
    quiet), a session that ends without an exception leaves the application
    object, and so every bar, exactly as [__init__] created it: all bars
    stay at the height 0.1. *)
Theorem quiet_clip_leaves_the_bars_flat (w : env) (file : string)
  (times : list float) (final : Self) :
  Forall (fun sample => quiet sample = true)
    (audio_data (Startup.object w file)) ->
  task_loop times (Startup.object w file) = Py.Ok final ->
  final = Startup.object w file.
Proof.
  intros Hq. set (self := Startup.object w file) in *.
  assert (Hflat : Forall (fun bar => Panda.y (Panda.scale bar) = 0.1 /\
                                     height_of bar = 0.1) (bars self)).
  { subst self. unfold Startup.object.
    destruct (fst (Startup.decode w file)) as [raw rate]. cbn [bars].
    apply Forall_map, Forall_forall. intros i _. split; reflexivity. }
  clearbody self. induction times as [|t times IH]; simpl; intros Hrun.
  - now injection Hrun as <-.
  - destruct (update_visualization self t) as [[status self']|e] eqn:Hupd;
      [|discriminate].
    pose proof (quiet_update self self' t status Hq Hflat Hupd) as ->.
    destruct status; [now injection Hrun as <- | now apply IH].
Qed.

Lemma quiet_clip_leaves_the_bars_flat_witness :
  Fixtures.undecodable_app = Startup.object Fixtures.undecodable "clip.wav".
Proof.
  apply (quiet_clip_leaves_the_bars_flat Fixtures.undecodable "clip.wav"
           (frame_times Fixtures.undecodable) Fixtures.undecodable_app).
  - exact (zeros_are_quiet 1024).
  - vm_compute. reflexivity.
Defined.

(** The session of the undecodable file ends where it began. *)
Example undecodable_session_is_flat :
  task_loop (frame_times Fixtures.undecodable) Fixtures.undecodable_app =
  Py.Ok Fixtures.undecodable_app.
Proof. vm_compute. reflexivity. Qed.

(** A NaN sample is quiet, half a hundredth is, two hundredths is not. *)
Example quiet_samples :
  quiet nan = true /\ quiet (-0.005) = true /\ quiet 0.02 = false.
Proof. repeat split; vm_compute; reflexivity. Qed.

(** X6: frames do not accumulate: in a state of the application, the
    object a running update at [t2] leaves is the same whether or not an
    update at some other time [t1] was made just before it ([t2] and the
    rate not negative). *)
Theorem last_frame_wins (w : env) (self self1 self2 : Self) (t1 t2 : float)
  (status1 : Panda.task_status) :
  reachable w self ->
  (0 <=? t2) = true -> (0 <= sample_rate self)%Z ->
  update_visualization self t1 = Py.Ok (status1, self1) ->
  update_visualization self t2 = Py.Ok (Panda.Task_cont, self2) ->
  update_visualization self1 t2 = Py.Ok (Panda.Task_cont, self2).
Proof.
  intros Hreach Ht Hr H1 H2.
  pose proof (reachable_ready w self Hreach) as (Hn & Hlen & Hall).
  apply update_inv in H2 as (s & Hs & [(Hd & _) | (_ & Hguard & ->)]);
    [discriminate|].
  pose proof (start_sample_nonneg self t2 s Ht Hr Hs) as Hpos.
  rewrite Hn in *.
  destruct (chunk_inside self s 0 Hpos Hn Hguard) as (Hchunk & _).
  set (chunk := Py.slice (audio_data self) s (s + 64)) in *.
  apply update_inv in H1 as (s1 & _ & [(_ & -> & _) | (_ & _ & ->)]).
  - unfold update_visualization. rewrite Hs, Hn. fold chunk.
    destruct (s + 64 >=? Z.of_nat (length (audio_data self)))%Z eqn:E;
      [apply Z.geb_le in E; lia | reflexivity].
  - unfold update_visualization, start_sample in *.
    cbn [set_bars sample_rate audio_data num_bars bars]. rewrite Hs, Hn.
    fold chunk.
    destruct (s + 64 >=? Z.of_nat (length (audio_data self)))%Z eqn:E;
      [apply Z.geb_le in E; lia|].
    do 2 f_equal. unfold set_bars. cbn. f_equal.
    apply nth_error_ext. intros i. rewrite !nth_error_update_bars.
    destruct (nth_error (bars self) i) as [bar|] eqn:Hbar; [|reflexivity].
    simpl. f_equal.
    assert (Hi : (i < length chunk)%nat).
    { rewrite Hchunk, <- Hlen. apply nth_error_Some. congruence. }
    destruct (nth_error chunk i) as [sample|] eqn:Hsample;
      [|apply nth_error_None in Hsample; lia].
    rewrite !(update_bar_hit chunk i _ sample Hsample).
    rewrite Forall_forall in Hall.
    destruct (Hall bar (nth_error_In _ _ Hbar)) as [Hy _].
    destruct (update_bar_same_but_height
                (Py.slice (audio_data self) s1 (s1 + 64)) i bar Hy)
      as (A1 & A2 & A3 & A4 & A5 & _).
    unfold Panda.setScale. now rewrite A1, A2, A3, A4, A5.
Qed.

Lemma last_frame_wins_witness :
  update_visualization Clips.stereo_after_one_frame 0.012 =
  Py.Ok (Panda.Task_cont,
         set_bars
           (update_bars (Py.slice (audio_data Fixtures.stereo_app) 96 (96 + 64))
              (bars Fixtures.stereo_app))
           Fixtures.stereo_app).
Proof.
  apply (last_frame_wins Fixtures.stereo Fixtures.stereo_app
           Clips.stereo_after_one_frame _ 0.004 0.012 Panda.Task_cont).
  - exact stereo_app_reachable.
  - vm_compute. reflexivity.
  - vm_compute. discriminate.
  - vm_compute. reflexivity.
  - vm_compute. reflexivity.
Defined.

End Quiet.

(* ================================================================== *)
(** * Beyond the specification: playback and the bars *)
(* ================================================================== *)

Section Playback.
Import World AudioVisualizer.
Local Open Scope float_scope.

(** X7: when [sa.play_buffer] raises, [play_audio] prints the error and
    [__init__] goes on: the handle [playback_obj] stays unset, the scene is
    set up, the 64 bars are created and the frame task is scheduled. *)
Theorem playback_failure_is_not_fatal (w : env) (file : string) (e : Py.exn)
  (log : list event) :
  sa_play_buffer w (playback_data (Startup.object w file)) 1 2
    (sample_rate (Startup.object w file)) = Py.Raise e ->
  exists self,
    __init__ w file log =
    (Py.Ok self,
     log ++ [ShowBaseInit; RequestProperties "Audio Visualizer"; DisableMouse]
         ++ snd (Startup.decode w file)
         ++ [PlayBuffer (playback_data self) 1 2 (sample_rate self);
             Print ("Error playing audio: " ++ Py.exn_msg e)%string]
         ++ Startup.scene_events
         ++ Startup.bar_events (Py.range 64)
         ++ [TaskMgrAdd "UpdateVisualization"]) /\
    playback_obj self = None /\
    length (bars self) = 64%nat.
Proof.
  intros Hplay. exists (Startup.object w file). rewrite init_spec.
  revert Hplay. unfold Startup.events, Startup.object, Startup.submit.
  destruct (fst (Startup.decode w file)) as [raw rate].
  cbn [playback_data sample_rate playback_obj bars]. intros Hplay. rewrite Hplay.
  cbn [fst snd]. repeat split.
Qed.

Lemma playback_failure_is_not_fatal_witness :
  exists self,
    __init__ Fixtures.stereo "clip.wav" [] =
    (Py.Ok self,
     [] ++ [ShowBaseInit; RequestProperties "Audio Visualizer"; DisableMouse]
        ++ snd (Startup.decode Fixtures.stereo "clip.wav")
        ++ [PlayBuffer (playback_data self) 1 2 (sample_rate self);
            Print ("Error playing audio: "
                   ++ Py.exn_msg (Py.Exception "SimpleaudioError"
                                    "Error opening PCM device."))%string]
        ++ Startup.scene_events
        ++ Startup.bar_events (Py.range 64)
        ++ [TaskMgrAdd "UpdateVisualization"]) /\
    playback_obj self = None /\
    length (bars self) = 64%nat.
Proof.
  apply (playback_failure_is_not_fatal Fixtures.stereo "clip.wav"
           (Py.Exception "SimpleaudioError" "Error opening PCM device.") []).
  reflexivity.
Defined.

Lemma filter_prints (f : event -> bool) (l : list event) :
  (forall ev, In ev l -> f ev = false) -> filter f l = [].
Proof.
  induction l as [|ev l IH]; intros H; simpl; [reflexivity|].
  rewrite (H ev (or_introl eq_refl)). apply IH. intros ev' Hin. apply H. now right.
Qed.

(** X8: [__init__] calls [sa.play_buffer] exactly once, with the playback
    buffer, 1 channel, 2 bytes per sample and the sample rate it kept; the
    buffer has one sample per mono sample, so for a file of R channels one
    per frame (not R), at the rate the decoder returned. *)
Theorem one_mono_submission (w : env) (file : string) (log log' : list event)
  (self : Self) :
  __init__ w file log = (Py.Ok self, log') ->
  exists evs,
    log' = log ++ evs /\
    filter is_play_buffer evs = [PlayBuffer (playback_data self) 1 2 (sample_rate self)] /\
    length (playback_data self) = length (audio_data self) /\
    (forall R rows rate,
       sf_read w file = Py.Ok (Np.Array2D R rows, rate) ->
       length (playback_data self) = length rows /\ sample_rate self = rate).
Proof.
  rewrite init_spec. intros H. injection H as <- <-.
  exists (Startup.events w file). split; [reflexivity|].
  unfold Startup.events, Startup.object, Startup.decode, Startup.submit.
  destruct (sf_read w file) as [[raw rate]|e]; cbn [fst snd playback_data sample_rate audio_data];
    rewrite length_to_playback.
  - split; [|split; [reflexivity|]].
    + destruct (sa_play_buffer w _ 1 2 rate); reflexivity.
    + intros R rows rate' H. injection H as -> ->. cbn [to_mono].
      now rewrite length_map.
  - split; [|split; [reflexivity|discriminate]].
    destruct (sa_play_buffer w _ 1 2 44100); reflexivity.
Qed.

Lemma one_mono_submission_witness :
  exists evs,
    [] ++ Startup.events Fixtures.stereo "clip.wav" = [] ++ evs /\
    filter is_play_buffer evs =
    [PlayBuffer (playback_data Fixtures.stereo_app) 1 2
       (sample_rate Fixtures.stereo_app)] /\
    length (playback_data Fixtures.stereo_app) =
    length (audio_data Fixtures.stereo_app) /\
    (forall R rows rate,
       sf_read Fixtures.stereo "clip.wav" = Py.Ok (Np.Array2D R rows, rate) ->
       length (playback_data Fixtures.stereo_app) = length rows /\
       sample_rate Fixtures.stereo_app = rate).
Proof.
  apply (one_mono_submission Fixtures.stereo "clip.wav" []
           ([] ++ Startup.events Fixtures.stereo "clip.wav") Fixtures.stereo_app).
  apply init_spec.
Defined.

End Playback.

Section Bars.
Import World AudioVisualizer.
Local Open Scope float_scope.

(** X9: [prepare_bars] starts from an empty row whatever the object held:
    it returns with [num_bars] 64 and exactly 64 bars, bar [i] being the one
    built from [i] alone, after one [loadModel] and one [reparentTo] per bar
    (128 calls); it leaves the audio attributes alone; and called again on
    its result it yields the same object again, not 128 bars. *)
Theorem prepare_bars_starts_afresh (self : Self) (log : list event) (i : nat) :
  (i < 64)%nat ->
  exists self',
    prepare_bars self log = (Py.Ok self', log ++ Startup.bar_events (Py.range 64)) /\
    length (Startup.bar_events (Py.range 64)) = 128%nat /\
    num_bars self' = 64%Z /\
    length (bars self') = 64%nat /\
    nth_error (bars self') i = Some (bar_at 64 (Z.of_nat i)) /\
    audio_data self' = audio_data self /\
    sample_rate self' = sample_rate self /\
    playback_data self' = playback_data self /\
    playback_obj self' = playback_obj self /\
    prepare_bars self' (log ++ Startup.bar_events (Py.range 64)) =
    (Py.Ok self',
     (log ++ Startup.bar_events (Py.range 64)) ++ Startup.bar_events (Py.range 64)).
Proof.
  intros Hi. eexists. rewrite prepare_bars_spec. split; [reflexivity|].
  cbn [set_bars set_num_bars num_bars bars audio_data sample_rate playback_data
       playback_obj].
  repeat split.
  - unfold Py.range. rewrite nth_error_map, nth_error_map, nth_error_seq.
    change (Z.to_nat 64) with 64%nat.
    destruct (i <? 64)%nat eqn:E; [reflexivity | apply Nat.ltb_ge in E; lia].
  - rewrite prepare_bars_spec. reflexivity.
Qed.

Lemma prepare_bars_starts_afresh_witness :
  exists self',
    prepare_bars Clips.stereo_final [Run] =
    (Py.Ok self', [Run] ++ Startup.bar_events (Py.range 64)) /\
    length (Startup.bar_events (Py.range 64)) = 128%nat /\
    num_bars self' = 64%Z /\
    length (bars self') = 64%nat /\
    nth_error (bars self') 63 = Some (bar_at 64 (Z.of_nat 63)) /\
    audio_data self' = audio_data Clips.stereo_final /\
    sample_rate self' = sample_rate Clips.stereo_final /\
    playback_data self' = playback_data Clips.stereo_final /\
    playback_obj self' = playback_obj Clips.stereo_final /\
    prepare_bars self' ([Run] ++ Startup.bar_events (Py.range 64)) =
    (Py.Ok self',
     ([Run] ++ Startup.bar_events (Py.range 64)) ++ Startup.bar_events (Py.range 64)).
Proof.
  apply (prepare_bars_starts_afresh Clips.stereo_final [Run] 63). lia.
Defined.







(** The ends of the row. *)
Example row_ends :
  bar_x (bar_at 64 0) = (-16) /\ bar_x (bar_at 64 63) = 15.5.
Proof. split; vm_compute; reflexivity. Qed.

End Bars.

Section Polarity.
Import World AudioVisualizer.
Local Open Scope float_scope.

Lemma binary_round_aux_opp (s : bool) (m e : Z) (l : location) :
  binary_round_aux prec emax (negb s) m e l =
  SFopp (binary_round_aux prec emax s m e l).
Proof.
  unfold binary_round_aux.
  destruct (shr_fexp prec emax m e l) as [mrs' e'].
  destruct (shr_fexp prec emax _ e' loc_Exact) as [mrs'' e''].
  destruct (shr_m mrs''); try reflexivity.
  destruct (Z.leb _ _); reflexivity.
Qed.

Lemma SFmul_opp (x y : spec_float) :
  SFmul prec emax (SFopp x) y = SFopp (SFmul prec emax x y).
Proof.
  destruct x as [sx|sx| |sx mx ex], y as [sy|sy| |sy my ey]; simpl;
    try reflexivity; try (destruct sx, sy; reflexivity).
  rewrite <- binary_round_aux_opp. now destruct sx, sy.
Qed.

Lemma mul_opp (v k : float) : (- v) * k = - (v * k).
Proof.
  apply Prim2SF_inj. rewrite mul_spec, !opp_spec, mul_spec. apply SFmul_opp.
Qed.

Lemma int_opp (p : float) :
  Py.int (- p) =
  match Py.int p with Py.Ok n => Py.Ok (- n)%Z | Py.Raise e => Py.Raise e end.
Proof.
  unfold Py.int, Py.to_integer. rewrite opp_spec.
  destruct (Prim2SF p) as [s|s| |s m e]; try reflexivity. simpl SFopp. cbv iota.
  f_equal. destruct (0 <=? e)%Z eqn:E.
  - destruct s; unfold cond_Zopp, negb; lia.
  - apply Z.leb_gt in E.
    assert (0 < 2 ^ (- e))%Z by (apply Z.pow_pos_nonneg; lia).
    destruct s; unfold cond_Zopp, negb.
    + rewrite Z.quot_opp_l by lia. lia.
    + rewrite Z.quot_opp_l by lia. reflexivity.
Qed.

(** X11: the conversion of line 43 is odd on samples of magnitude at
    most 1: inverting the polarity of the audio negates every playback
    sample exactly (the cast truncates toward zero, on both sides alike). *)
Theorem playback_of_inverted_audio (w : env) (audio : list float) :
  Forall (fun v => (abs v <=? 1) = true) audio ->
  to_playback w (map PrimFloat.opp audio) = map Z.opp (to_playback w audio).
Proof.
  intros Hunit. apply nth_error_ext. intros i.
  rewrite nth_error_map, !nth_error_to_playback, nth_error_map.
  destruct (nth_error audio i) as [v|] eqn:Hv; [|reflexivity]. simpl. f_equal.
  rewrite Forall_forall in Hunit. specialize (Hunit v (nth_error_In _ _ Hv)).
  destruct (unit_sample_in_range v Hunit) as (n & Hn & Hrange).
  unfold Np.cast_int16. rewrite mul_opp, int_opp, Hn. unfold Np.in_int16.
  destruct (-32768 <=? n)%Z eqn:E1; [|apply Z.leb_gt in E1; lia].
  destruct (n <=? 32767)%Z eqn:E2; [|apply Z.leb_gt in E2; lia].
  destruct (-32768 <=? - n)%Z eqn:E3; [|apply Z.leb_gt in E3; lia].
  destruct (- n <=? 32767)%Z eqn:E4; [|apply Z.leb_gt in E4; lia].
  reflexivity.
Qed.

Lemma playback_of_inverted_audio_witness :
  to_playback Fixtures.stereo (map PrimFloat.opp [0.25; -0.6; 1; 0]) =
  map Z.opp (to_playback Fixtures.stereo [0.25; -0.6; 1; 0]).
Proof.
  apply (playback_of_inverted_audio Fixtures.stereo [0.25; -0.6; 1; 0]).
  repeat constructor.
Defined.

End Polarity.

Section WholeProgram.
Import World AudioVisualizer.

(** X12: when the input file exists, [main] builds the application and
    enters the main loop: its log is the calls of [__init__] followed by
    [run()], whatever happens in the frames; it returns the object the
    session ends with, or raises the exception of the frame task; and when
    decoding and playback both succeed it prints nothing at all. *)
Theorem main_runs_the_session (w : env) (log : list event) :
  os_path_exists w "LTJ Bukem - Atlantis [-g3RUnx9svM].mp3" = true ->
  main w log =
  (match
     task_loop (frame_times w)
       (Startup.object w "LTJ Bukem - Atlantis [-g3RUnx9svM].mp3")
   with
   | Py.Ok final => Py.Ok (Some final)
   | Py.Raise e => Py.Raise e
   end,
   log ++ Startup.events w "LTJ Bukem - Atlantis [-g3RUnx9svM].mp3" ++ [Run]) /\
  (forall raw rate obj,
     sf_read w "LTJ Bukem - Atlantis [-g3RUnx9svM].mp3" = Py.Ok (raw, rate) ->
     sa_play_buffer w (to_playback w (to_mono raw)) 1 2 rate = Py.Ok obj ->
     filter is_print
       (Startup.events w "LTJ Bukem - Atlantis [-g3RUnx9svM].mp3" ++ [Run]) = []).
Proof.
  intros H. split.
  - unfold main. rewrite H. cbn [negb].
    unfold bind at 1. rewrite init_spec.
    unfold run, call, lift, ret, bind. cbv beta iota.
    destruct (task_loop _ _) as [final|e]; now rewrite <- ?app_assoc.
  - intros raw rate obj Hread Hplay.
    unfold Startup.events, Startup.decode, Startup.submit.
    rewrite Hread. cbn [fst snd]. rewrite Hplay. reflexivity.
Qed.

Lemma main_runs_the_session_witness :
  main Clips.short [] =
  (match
     task_loop (frame_times Clips.short)
       (Startup.object Clips.short "LTJ Bukem - Atlantis [-g3RUnx9svM].mp3")
   with
   | Py.Ok final => Py.Ok (Some final)
   | Py.Raise e => Py.Raise e
   end,
   [] ++ Startup.events Clips.short "LTJ Bukem - Atlantis [-g3RUnx9svM].mp3"
      ++ [Run]) /\
  (forall raw rate obj,
     sf_read Clips.short "LTJ Bukem - Atlantis [-g3RUnx9svM].mp3" = Py.Ok (raw, rate) ->
     sa_play_buffer Clips.short (to_playback Clips.short (to_mono raw)) 1 2 rate
     = Py.Ok obj ->
     filter is_print
       (Startup.events Clips.short "LTJ Bukem - Atlantis [-g3RUnx9svM].mp3"
        ++ [Run]) = []).
Proof.
  apply (main_runs_the_session Clips.short []). reflexivity.
Defined.

End WholeProgram.
